(** * Cross-account relay Lambda (spoke_lambda.py): model and properties

    The handler reads two configuration keys, assumes a role in the hub
    account, invokes a Lambda function there with the incoming event, and
    maps the outcome to a result mapping.

    The Python code is embedded as functions in a small exception-and-trace
    monad.  Python dictionaries are finite maps from strings to Python
    values.  The AWS SDK (boto3) and the standard-library codecs (json,
    base64, bytes.decode) are not part of the repository: they are taken as
    parameters ([World], [PyLib]) so that every theorem holds for whatever
    these collaborators answer.  Every SDK call is recorded in a trace, which
    makes statements such as "called once" or "called with this payload"
    expressible.  Logging has no influence on results and is left out, except
    for the subscript expressions evaluated inside log statements, which can
    raise. *)

From Stdlib Require Import ZArith String Ascii List.
From stdpp Require Import base option list gmap strings.

Set Warnings "-register-all".

Local Open Scope string_scope.
Local Open Scope Z_scope.

(** ** Python values *)

(** A Python float, as far as its numerical value matters: not-a-number, an
    infinity, or the finite binary value [mantissa * 2 ^ exponent]. *)
Inductive pyfloat : Type :=
| FNaN
| FInf (negative : bool)
| FFinite (mantissa exponent : Z).

Inductive pyval : Type :=
| PyNone
| PyBool (b : bool)
| PyInt (n : Z)
| PyFloat (f : pyfloat)
| PyStr (s : string)
| PyList (l : list pyval)
| PyDict (d : gmap string pyval)
| PyStream (content : string).

(** ** Exceptions

    The subclasses of [Exception] that the code and its collaborators raise.
    [BotoCoreError] stands for the SDK failures that are not [ClientError]
    (connection failures, parameter validation, missing credentials). *)
Inductive exn : Type :=
| KeyError (key : string)
| TypeError (msg : string)
| AttributeError (msg : string)
| JSONDecodeError (msg : string)
| UnicodeDecodeError (msg : string)
| BinasciiError (msg : string)
| ClientError (msg : string)
| BotoCoreError (msg : string).

(** [repr] of a string key made of plain printable characters, as every key
    literal of the source is. *)
Definition py_repr_str (s : string) : string := "'" +:+ s +:+ "'".

(** [str(ex)] *)
Definition exn_str (ex : exn) : string :=
  match ex with
  | KeyError key => py_repr_str key
  | TypeError msg | AttributeError msg | JSONDecodeError msg
  | UnicodeDecodeError msg | BinasciiError msg
  | ClientError msg | BotoCoreError msg => msg
  end.

(** [isinstance(ex, ClientError)] *)
Definition is_ClientError (ex : exn) : bool :=
  match ex with ClientError _ => true | _ => false end.

(** ** The SDK's answers *)

Record CredentialsT : Type := {
  AccessKeyId : string;
  SecretAccessKey : string;
  SessionToken : string
}.

Record AssumeRoleResponse : Type := { Credentials : CredentialsT }.

(** A client bound to a session built from explicit keys. *)
Record LambdaClient : Type := {
  aws_access_key_id : string;
  aws_secret_access_key : string;
  aws_session_token : string
}.

Record ResponseMetadataT : Type := {
  RequestId : string;
  HTTPStatusCode : Z;
  HTTPHeaders : gmap string string;
  RetryAttempts : Z
}.

(** The answer of [Lambda.Client.invoke]: the status code, the payload
    stream and the response metadata are always there; the error flag, the
    log tail and the executed version only when the service sends them. *)
Record InvokeResponse : Type := {
  StatusCode : Z;
  FunctionError : option string;
  LogResult : option string;
  ExecutedVersion : option string;
  Payload : string;
  ResponseMetadata : ResponseMetadataT
}.

Definition opt_insert (key : string) (o : option pyval)
    (d : gmap string pyval) : gmap string pyval :=
  match o with
  | Some v => <[key := v]> d
  | None => d
  end.

Definition metadata_dict (md : ResponseMetadataT) : gmap string pyval :=
  {[ "RequestId" := PyStr (RequestId md);
     "HTTPStatusCode" := PyInt (HTTPStatusCode md);
     "HTTPHeaders" := PyDict (PyStr <$> HTTPHeaders md);
     "RetryAttempts" := PyInt (RetryAttempts md) ]}.

(** The dictionary the SDK hands to the caller. *)
Definition response_dict (r : InvokeResponse) : gmap string pyval :=
  opt_insert "FunctionError" (PyStr <$> FunctionError r)
    (opt_insert "LogResult" (PyStr <$> LogResult r)
       (opt_insert "ExecutedVersion" (PyStr <$> ExecutedVersion r)
          {[ "StatusCode" := PyInt (StatusCode r);
             "Payload" := PyStream (Payload r);
             "ResponseMetadata" := PyDict (metadata_dict (ResponseMetadata r)) ]})).

(** ** Collaborators *)

(** Process environment and the two remote services. *)
Record World : Type := {
  environ : gmap string string;
  sts_assume_role : string → string → exn + AssumeRoleResponse;
  lambda_invoke : LambdaClient → string → string → string → exn + InvokeResponse
}.

(** Codecs of the Python standard library.  A left result is the message of
    the exception the codec raises: [TypeError] for [json_dumps],
    [JSONDecodeError] for [json_loads], [UnicodeDecodeError] for
    [utf8_decode], [binascii.Error] for [b64decode].  Encoding a [str] as a
    JSON string cannot fail. *)
Record PyLib : Type := {
  json_dumps : pyval → string + string;
  json_encode_str : string → string;
  json_loads : string → string + pyval;
  utf8_decode : string → string + string;
  b64decode : string → string + string
}.

(** ** Exceptions and the call trace *)

Inductive call : Type :=
| AssumeRole (RoleArn RoleSessionName : string)
| Invoke (client : LambdaClient) (FunctionName LogType payload : string).

(** A computation starts from the calls made so far and ends with a value or
    a raised exception, and the calls made by then. *)
Definition M (A : Type) : Type := list call → (exn + A) * list call.

#[export] Instance M_ret : MRet M := λ A x t, (inr x, t).

#[export] Instance M_bind : MBind M := λ A B f m t,
  match m t with
  | (inr x, t') => f x t'
  | (inl ex, t') => (inl ex, t')
  end.

Definition raise {A : Type} (ex : exn) : M A := λ t, (inl ex, t).

Definition emit (c : call) : M unit := λ t, (inr tt, (t ++ [c])%list).

(** A collaborator's answer: its value, or its exception raised here. *)
Definition answer {A : Type} (r : exn + A) : M A := λ t, (r, t).

(** A codec's answer, its failure message wrapped in the exception class. *)
Definition codec {A : Type} (cls : string → exn) (r : string + A) : M A :=
  match r with
  | inr x => mret x
  | inl msg => raise (cls msg)
  end.

(** [try: body except <class> as ex: handler ex], the class as a test. *)
Definition try_except {A : Type} (body : M A) (caught : exn → bool)
    (handler : exn → M A) : M A := λ t,
  match body t with
  | (inl ex, t') => if caught ex then handler ex t' else (inl ex, t')
  | ok => ok
  end.

(** ** Operations on Python values *)

(** [d[key]] on a dictionary *)
Definition dict_getitem (d : gmap string pyval) (key : string) : exn + pyval :=
  match d !! key with
  | Some v => inr v
  | None => inl (KeyError key)
  end.

(** [v[key]] with a string key, on any value *)
Definition py_getitem (v : pyval) (key : string) : exn + pyval :=
  match v with
  | PyDict d => dict_getitem d key
  | PyList _ => inl (TypeError "list indices must be integers or slices, not str")
  | PyStr _ => inl (TypeError "string indices must be integers, not 'str'")
  | PyNone => inl (TypeError "'NoneType' object is not subscriptable")
  | PyBool _ => inl (TypeError "'bool' object is not subscriptable")
  | PyInt _ => inl (TypeError "'int' object is not subscriptable")
  | PyFloat _ => inl (TypeError "'float' object is not subscriptable")
  | PyStream _ => inl (TypeError "'StreamingBody' object is not subscriptable")
  end.

(** [os.environ[key]] *)
Definition environ_getitem (w : World) (key : string) : exn + string :=
  match environ w !! key with
  | Some v => inr v
  | None => inl (KeyError key)
  end.

(** Whether the float's value is the integer [n]. *)
Definition pyfloat_eq_int (f : pyfloat) (n : Z) : bool :=
  match f with
  | FFinite m e =>
      if 0 <=? e then m * 2 ^ e =? n else m =? n * 2 ^ (- e)
  | _ => false
  end.

(** [v == n] for an integer [n] *)
Definition py_eq_int (v : pyval) (n : Z) : bool :=
  match v with
  | PyInt m => m =? n
  | PyBool b => Z.b2z b =? n
  | PyFloat f => pyfloat_eq_int f n
  | _ => false
  end.

(** [v.read()] *)
Definition py_read (v : pyval) : exn + string :=
  match v with
  | PyStream content => inr content
  | _ => inl (AttributeError "object has no attribute 'read'")
  end.

(** [boto3.session.Session(...).client('lambda')] *)
Definition session_client (cred : CredentialsT) : LambdaClient :=
  {| aws_access_key_id := AccessKeyId cred;
     aws_secret_access_key := SecretAccessKey cred;
     aws_session_token := SessionToken cred |}.

(** ** The source, function by function *)

Section Spoke.

Context (lib : PyLib) (w : World).

Definition handle_response_status_and_msg (response : gmap string pyval)
    : M (gmap string pyval) :=
  md ← answer (dict_getitem response "ResponseMetadata");
  code ← answer (py_getitem md "HTTPStatusCode");
  let response :=
    if py_eq_int code 200
    then <["responseStatus" := PyStr "SUCCESS"]> response
    else <["responseStatus" := PyStr "FAILED"]> response in
  md ← answer (dict_getitem response "ResponseMetadata");
  code ← answer (py_getitem md "HTTPStatusCode");
  mret (<["statusCode" := code]> response).

Definition handle_error (event : pyval) (error_message : string)
    (statusCode : pyval) (response_status : string) : gmap string pyval :=
  {[ "event" := event;
     "statusCode" := PyInt 400;
     "responseStatus" := PyStr "FAILED";
     "body" := PyStr (json_encode_str lib error_message) ]}.

(** Building the STS client and the session makes no remote call; the one
    call is [assume_role].  Client construction is taken to succeed, as it
    does in a runtime with a configured region. *)
Definition get_lambda_client_in_hub_account (hub_account_role_arn : string)
    : M LambdaClient :=
  emit (AssumeRole hub_account_role_arn "VPCE_PERMISSIONS");;
  token ← answer (sts_assume_role w hub_account_role_arn "VPCE_PERMISSIONS");
  let cred := Credentials token in
  mret (session_client cred).

Definition decode_log_result (log_result : pyval) : M string :=
  match log_result with
  | PyStr s =>
      raw ← codec BinasciiError (b64decode lib s);
      codec UnicodeDecodeError (utf8_decode lib raw)
  | _ => raise (TypeError "argument should be a bytes-like object or ASCII string")
  end.

(** The message built in the [except ClientError] clause. *)
Definition unable_to_invoke (e : exn) : string :=
  "Unable to invoke VPC Endpoint permission Lambda function in NETWORK account: "
    +:+ exn_str e.

(** The suite under [try:] in [invoke_lambda_in_the_networking_account]. *)
Definition invoke_lambda_try (hub_account_role_arn hub_account_lambda_name : string)
    (event : pyval) : M (gmap string pyval) :=
  lambda_client ← get_lambda_client_in_hub_account hub_account_role_arn;
  payload ← codec TypeError (json_dumps lib event);
  emit (Invoke lambda_client hub_account_lambda_name "Tail" payload);;
  r ← answer (lambda_invoke w lambda_client hub_account_lambda_name "Tail" payload);
  let response := response_dict r in
  answer (dict_getitem response "StatusCode");;
  stream ← answer (dict_getitem response "Payload");
  raw ← answer (py_read stream);
  text ← codec UnicodeDecodeError (utf8_decode lib raw);
  actual_response_from_hub_lambda ← codec JSONDecodeError (json_loads lib text);
  actual_status_code ← answer (py_getitem actual_response_from_hub_lambda "statusCode");
  if bool_decide (is_Some (response !! "FunctionError"))
     || negb (py_eq_int actual_status_code 200)
  then
    encoded ← answer (dict_getitem response "LogResult");
    log_result ← decode_log_result encoded;
    mret (handle_error event log_result actual_status_code "FAILED")
  else
    handle_response_status_and_msg response.

Definition invoke_lambda_in_the_networking_account
    (hub_account_role_arn hub_account_lambda_name : string) (event : pyval)
    : M (gmap string pyval) :=
  try_except
    (invoke_lambda_try hub_account_role_arn hub_account_lambda_name event)
    is_ClientError
    (λ e, mret (handle_error event (unable_to_invoke e) (PyInt 500) "FAILED")).

Definition lambda_handler (event context : pyval) : M (gmap string pyval) :=
  hub_account_role_arn ← answer (environ_getitem w "VPCE_PERM_ROLE_ARN");
  hub_account_lambda_name ← answer (environ_getitem w "FUNC_NAME");
  try_except
    (response ← invoke_lambda_in_the_networking_account
                  hub_account_role_arn hub_account_lambda_name event;
     answer (dict_getitem response "statusCode");;
     mret response)
    (λ _, true)
    (λ ex, mret {[ "event" := event;
                   "statusCode" := PyInt 400;
                   "responseStatus" := PyStr "FAILED";
                   "body" := PyStr (exn_str ex) ]}).

End Spoke.

(** ** Specification vocabulary *)

(** The four-key failure mapping, with its body. *)
Definition failed_result (event : pyval) (body : string) : gmap string pyval :=
  {[ "event" := event;
     "statusCode" := PyInt 400;
     "responseStatus" := PyStr "FAILED";
     "body" := PyStr body ]}.

(** The transport answer with the two status entries written into it. *)
Definition annotated_response (r : InvokeResponse) : gmap string pyval :=
  let http := HTTPStatusCode (ResponseMetadata r) in
  <["statusCode" := PyInt http]>
    (<["responseStatus" := PyStr (if http =? 200 then "SUCCESS" else "FAILED")]>
       (response_dict r)).

(** The nested status code of a payload: the bytes decoded as UTF-8, parsed
    as JSON and subscripted with ['statusCode'] (lines 80 and 81). *)
Definition nested_status_code (lib : PyLib) (raw : string) : exn + pyval :=
  match utf8_decode lib raw with
  | inl msg => inl (UnicodeDecodeError msg)
  | inr text =>
      match json_loads lib text with
      | inl msg => inl (JSONDecodeError msg)
      | inr v => py_getitem v "statusCode"
      end
  end.

(** The log tail of an answer: ['LogResult'] looked up, decoded from base64
    and then from UTF-8 (lines 88 and 60). *)
Definition log_tail (lib : PyLib) (r : InvokeResponse) : exn + string :=
  match LogResult r with
  | None => inl (KeyError "LogResult")
  | Some encoded =>
      match b64decode lib encoded with
      | inl msg => inl (BinasciiError msg)
      | inr raw =>
          match utf8_decode lib raw with
          | inl msg => inl (UnicodeDecodeError msg)
          | inr text => inr text
          end
      end
  end.

(** Whether the answer carries the execution-error flag. *)
Definition flagged (r : InvokeResponse) : bool :=
  match FunctionError r with
  | Some _ => true
  | None => false
  end.

(** The transport status of a response mapping, as line 21 reads it:
    [response['ResponseMetadata']['HTTPStatusCode']]. *)
Definition transport_status (response : gmap string pyval) : exn + pyval :=
  match dict_getitem response "ResponseMetadata" with
  | inl ex => inl ex
  | inr md => py_getitem md "HTTPStatusCode"
  end.

(** Whether a value is a number: an [int] or a [float], [bool] excluded. *)
Definition is_number (v : pyval) : bool :=
  match v with
  | PyInt _ | PyFloat _ => true
  | _ => false
  end.

(** The SDK calls of one complete relay. *)
Definition relay_calls (arn fname : string) (token : AssumeRoleResponse)
    (payload : string) : list call :=
  [ AssumeRole arn "VPCE_PERMISSIONS";
    Invoke (session_client (Credentials token)) fname "Tail" payload ].

(** ** Fixtures: canned collaborators for the examples

    The codecs below agree with Python on the ASCII documents the examples
    use; the remote services answer by function name, as a mocked SDK would
    in a unit test. *)
Module Fixture.

Definition dq : string := String (ascii_of_nat 34) EmptyString.

Definition quoted (s : string) : string := dq +:+ s +:+ dq.

Definition hex_digit (n : N) : ascii :=
  match String.get (N.to_nat n) "0123456789abcdef" with
  | Some c => c
  | None => "0"%char
  end.

(** One character of a JSON string, escaped as [json.dumps] does with
    [ensure_ascii]. *)
Definition escape_char (c : ascii) : string :=
  let n := N_of_ascii c in
  if (n =? 34)%N then "\" +:+ dq
  else if (n =? 92)%N then "\\"
  else if (n =? 10)%N then "\n"
  else if (n =? 13)%N then "\r"
  else if (n =? 9)%N then "\t"
  else if (n =? 8)%N then "\b"
  else if (n =? 12)%N then "\f"
  else if ((32 <=? n) && (n <=? 126))%N then String c EmptyString
  else "\u00" +:+ String (hex_digit (n / 16)) (String (hex_digit (n mod 16)) EmptyString).

Fixpoint escape (s : string) : string :=
  match s with
  | EmptyString => EmptyString
  | String c rest => escape_char c +:+ escape rest
  end.

Definition encode_str (s : string) : string := quoted (escape s).

(** [json.dumps] of a one-entry dictionary of strings, or of a string. *)
Definition dumps (v : pyval) : string + string :=
  match v with
  | PyStr s => inr (encode_str s)
  | PyDict d =>
      match map_to_list d with
      | [(k, PyStr s)] => inr ("{" +:+ encode_str k +:+ ": " +:+ encode_str s +:+ "}")
      | _ => inl "Object is not JSON serializable"
      end
  | _ => inl "Object is not JSON serializable"
  end.

Definition payload_ok : string :=
  "{" +:+ quoted "statusCode" +:+ ": 200, " +:+ quoted "body" +:+ ": " +:+ quoted "ok" +:+ "}".

Definition payload_denied : string :=
  "{" +:+ quoted "statusCode" +:+ ": 403, " +:+ quoted "body" +:+ ": " +:+ quoted "denied" +:+ "}".

Definition payload_crash : string :=
  "{" +:+ quoted "errorMessage" +:+ ": " +:+ quoted "boom" +:+ ", "
      +:+ quoted "errorType" +:+ ": " +:+ quoted "Exception" +:+ "}".

(** [json.loads] on the three documents above; other text is not JSON here. *)
Definition loads (text : string) : string + pyval :=
  if String.eqb text payload_ok then
    inr (PyDict {[ "statusCode" := PyInt 200; "body" := PyStr "ok" ]})
  else if String.eqb text payload_denied then
    inr (PyDict {[ "statusCode" := PyInt 403; "body" := PyStr "denied" ]})
  else if String.eqb text payload_crash then
    inr (PyDict {[ "errorMessage" := PyStr "boom"; "errorType" := PyStr "Exception" ]})
  else inl "Expecting value: line 1 column 1 (char 0)".

Definition is_ascii (c : ascii) : bool := (N_of_ascii c <? 128)%N.

(** [bytes.decode('utf-8')] on ASCII bytes. *)
Definition decode_ascii (raw : string) : string + string :=
  if forallb is_ascii (list_ascii_of_string raw) then inr raw
  else inl "'utf-8' codec can't decode byte: invalid start byte".

Definition b64_value (c : ascii) : option N :=
  let n := N_of_ascii c in
  if ((65 <=? n) && (n <=? 90))%N then Some (n - 65)%N
  else if ((97 <=? n) && (n <=? 122))%N then Some (n - 71)%N
  else if ((48 <=? n) && (n <=? 57))%N then Some (n + 4)%N
  else if (n =? 43)%N then Some 62%N
  else if (n =? 47)%N then Some 63%N
  else None.

Definition byte (n : N) : ascii := ascii_of_N (n mod 256).

Definition is_pad (c : ascii) : bool := (N_of_ascii c =? 61)%N.

(** Standard base64, four characters to three bytes, padding at the end. *)
Fixpoint b64_bytes (l : list ascii) : option (list ascii) :=
  match l with
  | [] => Some []
  | a :: b :: c :: d :: rest =>
      va ← b64_value a;
      vb ← b64_value b;
      if is_pad d then
        match rest with
        | [] =>
            if is_pad c then Some [byte (va * 4 + vb / 16)]
            else
              vc ← b64_value c;
              Some [byte (va * 4 + vb / 16); byte (vb * 16 + vc / 4)]
        | _ => None
        end
      else
        vc ← b64_value c;
        vd ← b64_value d;
        tail ← b64_bytes rest;
        Some (byte (va * 4 + vb / 16) :: byte (vb * 16 + vc / 4)
                :: byte (vc * 64 + vd) :: tail)
  | _ => None
  end.

Definition b64 (s : string) : string + string :=
  match b64_bytes (list_ascii_of_string s) with
  | Some bytes => inr (string_of_list_ascii bytes)
  | None => inl "Incorrect padding"
  end.

Definition lib : PyLib :=
  {| json_dumps := dumps;
     json_encode_str := encode_str;
     json_loads := loads;
     utf8_decode := decode_ascii;
     b64decode := b64 |}.

Definition hub_role : string := "arn:aws:iam::222222222222:role/vpce-permissions".

Definition token : AssumeRoleResponse :=
  {| Credentials := {| AccessKeyId := "ASIAEXAMPLE";
                       SecretAccessKey := "secret";
                       SessionToken := "session" |} |}.

Definition access_denied : exn :=
  ClientError "An error occurred (AccessDenied) when calling the AssumeRole operation: not authorized to perform sts:AssumeRole".

Definition function_not_found : exn :=
  ClientError "An error occurred (ResourceNotFoundException) when calling the Invoke operation: Function not found".

Definition assume_role (arn session : string) : exn + AssumeRoleResponse :=
  if String.eqb arn hub_role then inr token else inl access_denied.

Definition metadata (http : Z) : ResponseMetadataT :=
  {| RequestId := "req-1"; HTTPStatusCode := http;
     HTTPHeaders := ∅; RetryAttempts := 0 |}.

Definition answered (http : Z) (flag log : option string) (body : string)
    : InvokeResponse :=
  {| StatusCode := http; FunctionError := flag; LogResult := log;
     ExecutedVersion := Some "$LATEST"; Payload := body;
     ResponseMetadata := metadata http |}.

Definition ok_answer : InvokeResponse :=
  answered 200 None (Some "b2s=") payload_ok.

Definition accepted_answer : InvokeResponse :=
  answered 202 None (Some "b2s=") payload_ok.

Definition denied_answer : InvokeResponse :=
  answered 200 None (Some "ZGVuaWVk") payload_denied.

Definition crash_answer : InvokeResponse :=
  answered 200 (Some "Unhandled") (Some "Ym9vbQ==") payload_crash.

Definition nolog_answer : InvokeResponse :=
  answered 200 None None payload_denied.

Definition garbled_answer : InvokeResponse :=
  answered 200 None (Some "b2s=") "not json".

(** The remote functions of the examples, by name. *)
Definition invoke (client : LambdaClient) (fname logtype payload : string)
    : exn + InvokeResponse :=
  if String.eqb fname "grant-ok" then inr ok_answer
  else if String.eqb fname "grant-accepted" then inr accepted_answer
  else if String.eqb fname "grant-denied" then inr denied_answer
  else if String.eqb fname "grant-crash" then inr crash_answer
  else if String.eqb fname "grant-nolog" then inr nolog_answer
  else if String.eqb fname "grant-garbled" then inr garbled_answer
  else inl function_not_found.

Definition world (env : gmap string string) : World :=
  {| environ := env; sts_assume_role := assume_role; lambda_invoke := invoke |}.

Definition configured (arn fname : string) : gmap string string :=
  {[ "VPCE_PERM_ROLE_ARN" := arn; "FUNC_NAME" := fname ]}.

(** The hub role with each remote function, a role the provider refuses,
    and two incomplete configurations. *)
Definition hub (fname : string) : World := world (configured hub_role fname).

Definition other_role : string := "arn:aws:iam::333333333333:role/unknown".

Definition refused : World := world (configured other_role "grant-ok").

Definition unconfigured : World := world ∅.

Definition half_configured : World :=
  world {[ "VPCE_PERM_ROLE_ARN" := hub_role ]}.

Definition event : pyval := PyDict {[ "Action" := PyStr "Grant" ]}.

Definition event_json : string :=
  "{" +:+ quoted "Action" +:+ ": " +:+ quoted "Grant" +:+ "}".

Definition calls (fname : string) : list call :=
  relay_calls hub_role fname token event_json.

(** Further canned answers: a connection failure, a log tail that is not
    base64, a nested status code sent as a string, and an event that is not
    JSON. *)
Definition offline : exn :=
  BotoCoreError ("Could not connect to the endpoint URL: "
                   +:+ quoted "https://lambda.eu-west-1.amazonaws.com/2015-03-31/functions/grant-offline/invocations").

Definition payload_string_status : string :=
  "{" +:+ quoted "statusCode" +:+ ": " +:+ quoted "200" +:+ "}".

Definition badlog_answer : InvokeResponse :=
  answered 200 None (Some "Ym9") payload_denied.

Definition string_status_answer : InvokeResponse :=
  answered 200 None (Some "b2s=") payload_string_status.

Definition invoke_more (client : LambdaClient) (fname logtype payload : string)
    : exn + InvokeResponse :=
  if String.eqb fname "grant-offline" then inl offline
  else if String.eqb fname "grant-badlog" then inr badlog_answer
  else if String.eqb fname "grant-string-status" then inr string_status_answer
  else invoke client fname logtype payload.

Definition loads_more (text : string) : string + pyval :=
  if String.eqb text payload_string_status then
    inr (PyDict {[ "statusCode" := PyStr "200" ]})
  else loads text.

Definition dumps_more (v : pyval) : string + string :=
  match v with
  | PyStream _ => inl "Object of type StreamingBody is not JSON serializable"
  | _ => dumps v
  end.

Definition lib_more : PyLib :=
  {| json_dumps := dumps_more;
     json_encode_str := encode_str;
     json_loads := loads_more;
     utf8_decode := decode_ascii;
     b64decode := b64 |}.

Definition hub_more (fname : string) : World :=
  {| environ := configured hub_role fname;
     sts_assume_role := assume_role;
     lambda_invoke := invoke_more |}.

Definition stream_event : pyval := PyStream "raw".

(** A response mapping that already carries a stale status entry. *)
Definition stale_response : gmap string pyval :=
  {[ "ResponseMetadata" := PyDict {[ "HTTPStatusCode" := PyInt 200 ]};
     "StatusCode" := PyInt 200;
     "responseStatus" := PyStr "FAILED" ]}.

(** [stale_response] annotated: the stale FAILED is overwritten. *)
Definition annotated_stale : gmap string pyval :=
  {[ "ResponseMetadata" := PyDict {[ "HTTPStatusCode" := PyInt 200 ]};
     "StatusCode" := PyInt 200;
     "responseStatus" := PyStr "SUCCESS";
     "statusCode" := PyInt 200 ]}.

End Fixture.

(** * Properties *)

Ltac run_monad :=
  unfold mbind, M_bind, mret, M_ret, answer, codec, raise, emit, try_except;
  simpl.

Ltac response_lookup r :=
  unfold response_dict, opt_insert;
  destruct (FunctionError r), (LogResult r), (ExecutedVersion r); simpl;
  by simplify_map_eq.

(** ** Entries of the transport answer *)

Lemma response_dict_StatusCode r :
  response_dict r !! "StatusCode" = Some (PyInt (StatusCode r)).
Proof. response_lookup r. Qed.

Lemma response_dict_Payload r :
  response_dict r !! "Payload" = Some (PyStream (Payload r)).
Proof. response_lookup r. Qed.

Lemma response_dict_ResponseMetadata r :
  response_dict r !! "ResponseMetadata"
  = Some (PyDict (metadata_dict (ResponseMetadata r))).
Proof. response_lookup r. Qed.

Lemma response_dict_FunctionError r :
  response_dict r !! "FunctionError" = PyStr <$> FunctionError r.
Proof. response_lookup r. Qed.

Lemma response_dict_LogResult r :
  response_dict r !! "LogResult" = PyStr <$> LogResult r.
Proof. response_lookup r. Qed.

Lemma response_dict_event r : response_dict r !! "event" = None.
Proof. response_lookup r. Qed.


Lemma annotated_response_statusCode r :
  annotated_response r !! "statusCode"
  = Some (PyInt (HTTPStatusCode (ResponseMetadata r))).
Proof. unfold annotated_response. by simplify_map_eq. Qed.

Lemma annotated_response_responseStatus r :
  annotated_response r !! "responseStatus"
  = Some (PyStr (if HTTPStatusCode (ResponseMetadata r) =? 200
                 then "SUCCESS" else "FAILED")).
Proof. unfold annotated_response. by simplify_map_eq. Qed.

Lemma annotated_response_event r : annotated_response r !! "event" = None.
Proof.
  unfold annotated_response. simplify_map_eq. apply response_dict_event.
Qed.



(** ** Running the relay, stage by stage *)

Section Run.

Context (lib : PyLib) (w : World) (event context : pyval).

Lemma handle_response_status_and_msg_run r t :
  handle_response_status_and_msg (response_dict r) t
  = (inr (annotated_response r), t).
Proof.
  unfold handle_response_status_and_msg, annotated_response. run_monad.
  unfold dict_getitem. rewrite response_dict_ResponseMetadata. simpl.
  unfold dict_getitem, metadata_dict. simplify_map_eq. simpl.
  destruct (HTTPStatusCode (ResponseMetadata r) =? 200);
    simplify_map_eq; rewrite response_dict_ResponseMetadata; simpl;
    unfold dict_getitem; by simplify_map_eq.
Qed.

Lemma try_assume_role_failed arn fname ex :
  sts_assume_role w arn "VPCE_PERMISSIONS" = inl ex →
  invoke_lambda_try lib w arn fname event []
  = (inl ex, [AssumeRole arn "VPCE_PERMISSIONS"]).
Proof.
  intros Hsts. unfold invoke_lambda_try, get_lambda_client_in_hub_account.
  run_monad. by rewrite Hsts.
Qed.

Lemma try_dumps_failed arn fname tok msg :
  sts_assume_role w arn "VPCE_PERMISSIONS" = inr tok →
  json_dumps lib event = inl msg →
  invoke_lambda_try lib w arn fname event []
  = (inl (TypeError msg), [AssumeRole arn "VPCE_PERMISSIONS"]).
Proof.
  intros Hsts Hdumps. unfold invoke_lambda_try, get_lambda_client_in_hub_account.
  run_monad. by rewrite Hsts, Hdumps.
Qed.

Lemma try_invoke_failed arn fname tok p ex :
  sts_assume_role w arn "VPCE_PERMISSIONS" = inr tok →
  json_dumps lib event = inr p →
  lambda_invoke w (session_client (Credentials tok)) fname "Tail" p = inl ex →
  invoke_lambda_try lib w arn fname event []
  = (inl ex, relay_calls arn fname tok p).
Proof.
  intros Hsts Hdumps Hinvoke.
  unfold invoke_lambda_try, get_lambda_client_in_hub_account.
  run_monad. rewrite Hsts, Hdumps. simpl. by rewrite Hinvoke.
Qed.

(** Once the function has answered, the outcome is a function of the answer. *)
Lemma try_answered arn fname tok p r :
  sts_assume_role w arn "VPCE_PERMISSIONS" = inr tok →
  json_dumps lib event = inr p →
  lambda_invoke w (session_client (Credentials tok)) fname "Tail" p = inr r →
  invoke_lambda_try lib w arn fname event [] =
    (match nested_status_code lib (Payload r) with
     | inl ex => inl ex
     | inr c =>
         if flagged r || negb (py_eq_int c 200) then
           match log_tail lib r with
           | inl ex => inl ex
           | inr log => inr (handle_error lib event log c "FAILED")
           end
         else inr (annotated_response r)
     end, relay_calls arn fname tok p).
Proof.
  intros Hsts Hdumps Hinvoke.
  unfold invoke_lambda_try, get_lambda_client_in_hub_account. run_monad.
  rewrite Hsts, Hdumps. simpl. rewrite Hinvoke. simpl.
  unfold dict_getitem.
  rewrite response_dict_StatusCode, response_dict_Payload. simpl.
  unfold nested_status_code.
  destruct (utf8_decode lib (Payload r)) as [m|text]; simpl; [done|].
  destruct (json_loads lib text) as [m|v]; simpl; [done|].
  destruct (py_getitem v "statusCode") as [ex|c]; simpl; [done|].
  rewrite response_dict_FunctionError.
  assert (bool_decide (is_Some (PyStr <$> FunctionError r)) = flagged r) as ->.
  { unfold flagged. by destruct (FunctionError r). }
  destruct (flagged r || negb (py_eq_int c 200)).
  - rewrite response_dict_LogResult. unfold log_tail.
    destruct (LogResult r) as [enc|]; simpl; [|done].
    unfold decode_log_result. run_monad.
    destruct (b64decode lib enc) as [m|raw]; simpl; [done|].
    by destruct (utf8_decode lib raw) as [m|log].
  - apply handle_response_status_and_msg_run.
Qed.

(** The exceptions of the payload and log decoders are not [ClientError]s. *)
Lemma nested_status_code_not_ClientError raw ex :
  nested_status_code lib raw = inl ex → is_ClientError ex = false.
Proof.
  unfold nested_status_code.
  destruct (utf8_decode lib raw) as [m|text]; [by intros [= <-]|].
  destruct (json_loads lib text) as [m|v]; [by intros [= <-]|].
  destruct v; simpl; try by intros [= <-].
  unfold dict_getitem. destruct (d !! "statusCode"); [done|by intros [= <-]].
Qed.

Lemma log_tail_not_ClientError r ex :
  log_tail lib r = inl ex → is_ClientError ex = false.
Proof.
  unfold log_tail. destruct (LogResult r) as [enc|]; [|by intros [= <-]].
  destruct (b64decode lib enc) as [m|raw]; [by intros [= <-]|].
  destruct (utf8_decode lib raw) as [m|text]; [by intros [= <-]|done].
Qed.

(** The local [except ClientError] clause, in terms of the suite it guards. *)
Lemma invoke_of_try arn fname t :
  invoke_lambda_in_the_networking_account lib w arn fname event t =
    match invoke_lambda_try lib w arn fname event t with
    | (inl ex, t') =>
        if is_ClientError ex
        then (inr (handle_error lib event (unable_to_invoke ex) (PyInt 500) "FAILED"), t')
        else (inl ex, t')
    | ok => ok
    end.
Proof. reflexivity. Qed.

(** A returned mapping is one of the two shapes, after a complete relay or
    after a [ClientError]. *)
Lemma invoke_returns arn fname d t :
  invoke_lambda_in_the_networking_account lib w arn fname event [] = (inr d, t) →
  (∃ body, d = failed_result event body)
  ∨ (∃ tok p r c,
       sts_assume_role w arn "VPCE_PERMISSIONS" = inr tok
       ∧ json_dumps lib event = inr p
       ∧ lambda_invoke w (session_client (Credentials tok)) fname "Tail" p = inr r
       ∧ nested_status_code lib (Payload r) = inr c
       ∧ flagged r = false ∧ py_eq_int c 200 = true
       ∧ d = annotated_response r).
Proof.
  rewrite invoke_of_try.
  destruct (sts_assume_role w arn "VPCE_PERMISSIONS") as [ex|tok] eqn:Hsts.
  { rewrite (try_assume_role_failed _ _ _ Hsts).
    destruct (is_ClientError ex); [|done]. intros [= <- <-]. left. by eexists. }
  destruct (json_dumps lib event) as [m|p] eqn:Hdumps.
  { by rewrite (try_dumps_failed _ _ _ _ Hsts Hdumps). }
  destruct (lambda_invoke w (session_client (Credentials tok)) fname "Tail" p)
    as [ex|r] eqn:Hinvoke.
  { rewrite (try_invoke_failed _ _ _ _ _ Hsts Hdumps Hinvoke).
    destruct (is_ClientError ex); [|done]. intros [= <- <-]. left. by eexists. }
  rewrite (try_answered _ _ _ _ _ Hsts Hdumps Hinvoke).
  destruct (nested_status_code lib (Payload r)) as [ex|c] eqn:Hnested.
  { by rewrite (nested_status_code_not_ClientError _ _ Hnested). }
  destruct (flagged r) eqn:Hflag; simpl.
  - destruct (log_tail lib r) as [ex|log] eqn:Hlog.
    + by rewrite (log_tail_not_ClientError _ _ Hlog).
    + intros [= <- <-]. left. by eexists.
  - destruct (py_eq_int c 200) eqn:Hc; simpl.
    + intros [= <- <-]. right. by exists tok, p, r, c.
    + destruct (log_tail lib r) as [ex|log] eqn:Hlog.
      * by rewrite (log_tail_not_ClientError _ _ Hlog).
      * intros [= <- <-]. left. by eexists.
Qed.

(** What leaves the invocation step as an exception is not a [ClientError]. *)
Lemma invoke_raises arn fname ex t :
  invoke_lambda_in_the_networking_account lib w arn fname event [] = (inl ex, t) →
  invoke_lambda_try lib w arn fname event [] = (inl ex, t)
  ∧ is_ClientError ex = false.
Proof.
  rewrite invoke_of_try.
  destruct (invoke_lambda_try lib w arn fname event []) as [[ex'|d] t'].
  - destruct (is_ClientError ex') eqn:Hc; [done|]. by intros [= <- <-].
  - done.
Qed.

(** The calls made by the invocation step: the role assumption alone, or the
    complete relay with the serialised event as payload. *)
Lemma invoke_calls arn fname res t :
  invoke_lambda_in_the_networking_account lib w arn fname event [] = (res, t) →
  t = [AssumeRole arn "VPCE_PERMISSIONS"]
  ∨ ∃ tok p, json_dumps lib event = inr p ∧ t = relay_calls arn fname tok p.
Proof.
  rewrite invoke_of_try.
  destruct (sts_assume_role w arn "VPCE_PERMISSIONS") as [ex|tok] eqn:Hsts.
  { rewrite (try_assume_role_failed _ _ _ Hsts).
    destruct (is_ClientError ex); intros [= <- <-]; by left. }
  destruct (json_dumps lib event) as [m|p] eqn:Hdumps.
  { rewrite (try_dumps_failed _ _ _ _ Hsts Hdumps). intros [= <- <-]; by left. }
  assert (∀ o, (let '(o', t') := (o, relay_calls arn fname tok p) in
                match o' with
                | inl ex =>
                    if is_ClientError ex
                    then (inr (handle_error lib event (unable_to_invoke ex)
                                 (PyInt 500) "FAILED"), t')
                    else (inl ex, t')
                | inr d => (inr d, t')
                end) = (res, t) →
          t = relay_calls arn fname tok p) as Hsame.
  { intros [ex|d]; simpl; [destruct (is_ClientError ex)|]; by intros [= <- <-]. }
  destruct (lambda_invoke w (session_client (Credentials tok)) fname "Tail" p)
    as [ex|r] eqn:Hinvoke.
  - rewrite (try_invoke_failed _ _ _ _ _ Hsts Hdumps Hinvoke).
    intros H. right. exists tok, p. split; [done|]. by apply (Hsame (inl ex)).
  - rewrite (try_answered _ _ _ _ _ Hsts Hdumps Hinvoke).
    intros H. right. exists tok, p. split; [done|]. by eapply Hsame, H.
Qed.

End Run.

(** ** The handler, with both configuration keys set *)

Section Configured.

Context (lib : PyLib) (w : World) (event context : pyval).
Context (arn fname : string).
Hypothesis Harn : environ w !! "VPCE_PERM_ROLE_ARN" = Some arn.
Hypothesis Hfname : environ w !! "FUNC_NAME" = Some fname.

Lemma handler_of_invoke t :
  lambda_handler lib w event context t =
    match invoke_lambda_in_the_networking_account lib w arn fname event t with
    | (inr d, t') =>
        match d !! "statusCode" with
        | Some _ => (inr d, t')
        | None => (inr (failed_result event (exn_str (KeyError "statusCode"))), t')
        end
    | (inl ex, t') => (inr (failed_result event (exn_str ex)), t')
    end.
Proof.
  unfold lambda_handler, environ_getitem. rewrite Harn, Hfname. run_monad.
  destruct (invoke_lambda_in_the_networking_account lib w arn fname event t)
    as [[ex|d] t']; [done|].
  unfold dict_getitem. by destruct (d !! "statusCode").
Qed.

Lemma handler_after_raise ex t :
  invoke_lambda_in_the_networking_account lib w arn fname event [] = (inl ex, t) →
  lambda_handler lib w event context [] = (inr (failed_result event (exn_str ex)), t).
Proof. intros H. by rewrite handler_of_invoke, H. Qed.

Lemma handler_after_return d t :
  invoke_lambda_in_the_networking_account lib w arn fname event [] = (inr d, t) →
  lambda_handler lib w event context [] = (inr d, t).
Proof.
  intros H. rewrite handler_of_invoke, H.
  destruct (invoke_returns _ _ _ _ _ _ _ H) as [[body ->]|(tok & p & r & c & H')].
  - done.
  - destruct H' as (_ & _ & _ & _ & _ & _ & ->).
    by rewrite annotated_response_statusCode.
Qed.

(** C1 (as amended).  With both configuration keys set, the handler returns a
    mapping and never raises.  An exception raised in the invocation chain
    that is not a ClientError leaves the invocation step and is turned, at the
    top-level clause, into the mapping with statusCode 400, responseStatus
    FAILED and the stringified exception as body; a ClientError is turned
    into the failure mapping by the clause of the invocation step itself,
    with the JSON-encoded prefixed message as body. *)
Theorem lambda_handler_fault_barrier :
  ∃ d t,
    lambda_handler lib w event context [] = (inr d, t)
    ∧ ∀ ex t',
        invoke_lambda_try lib w arn fname event [] = (inl ex, t') →
        t = t'
        ∧ if is_ClientError ex
          then invoke_lambda_in_the_networking_account lib w arn fname event []
               = (inr d, t)
               ∧ d = failed_result event (json_encode_str lib (unable_to_invoke ex))
          else invoke_lambda_in_the_networking_account lib w arn fname event []
               = (inl ex, t)
               ∧ d = failed_result event (exn_str ex).
Proof.
  destruct (invoke_lambda_in_the_networking_account lib w arn fname event [])
    as [[ex|d] t] eqn:Hinv.
  - exists (failed_result event (exn_str ex)), t.
    split; [by apply handler_after_raise|].
    intros ex' t' Htry. rewrite invoke_of_try, Htry in Hinv.
    destruct (is_ClientError ex'); [done|]. by injection Hinv as <- <-.
  - exists d, t. split; [by apply handler_after_return|].
    intros ex' t' Htry. rewrite invoke_of_try, Htry in Hinv.
    destruct (is_ClientError ex'); [|done]. by injection Hinv as <- <-.
Qed.


(** C7.  When the identity provider rejects the role assumption, the handler
    returns the mapping with statusCode 400 and responseStatus FAILED; its
    body is built from the provider's message: the JSON encoding of the
    prefixed message for a ClientError, the message itself otherwise.  The
    provider has been called once, and nothing else has been called. *)
Theorem identity_assumption_failure ex :
  sts_assume_role w arn "VPCE_PERMISSIONS" = inl ex →
  lambda_handler lib w event context [] =
    (inr (failed_result event
            (if is_ClientError ex
             then json_encode_str lib
                    ("Unable to invoke VPC Endpoint permission Lambda function in NETWORK account: "
                       +:+ exn_str ex)
             else exn_str ex)),
     [AssumeRole arn "VPCE_PERMISSIONS"]).
Proof.
  intros Hsts. rewrite handler_of_invoke, invoke_of_try.
  rewrite (try_assume_role_failed _ _ _ _ _ _ Hsts).
  by destruct (is_ClientError ex).
Qed.

(** C6 (as amended).  When the remote call itself fails, the outcome goes by
    the class of the exception.  A ClientError is converted by the except
    clause of the invocation step, which returns normally: the mapping has
    statusCode 400 and responseStatus FAILED although 500 was passed to
    handle_error, its body is the JSON-encoded prefixed message, and the
    handler returns that mapping.  Any other exception is not converted
    there: it leaves the invocation step, and the top-level clause returns
    the mapping with statusCode 400, responseStatus FAILED and the
    stringified exception as body. *)
Theorem transport_failure_by_class tok p ex :
  sts_assume_role w arn "VPCE_PERMISSIONS" = inr tok →
  json_dumps lib event = inr p →
  lambda_invoke w (session_client (Credentials tok)) fname "Tail" p = inl ex →
  if is_ClientError ex
  then
    invoke_lambda_in_the_networking_account lib w arn fname event [] =
      (inr (handle_error lib event (unable_to_invoke ex) (PyInt 500) "FAILED"),
       relay_calls arn fname tok p)
    ∧ lambda_handler lib w event context [] =
        (inr (failed_result event
                (json_encode_str lib
                   ("Unable to invoke VPC Endpoint permission Lambda function in NETWORK account: "
                      +:+ exn_str ex))),
         relay_calls arn fname tok p)
  else
    invoke_lambda_in_the_networking_account lib w arn fname event [] =
      (inl ex, relay_calls arn fname tok p)
    ∧ lambda_handler lib w event context [] =
        (inr (failed_result event (exn_str ex)), relay_calls arn fname tok p).
Proof.
  intros Hsts Hdumps Hinvoke.
  pose proof (invoke_of_try lib w event arn fname []) as Hinv.
  rewrite (try_invoke_failed _ _ _ _ _ _ _ _ Hsts Hdumps Hinvoke) in Hinv.
  destruct (is_ClientError ex).
  - split; [done|]. by rewrite (handler_after_return _ _ Hinv).
  - split; [done|]. by rewrite (handler_after_raise _ _ Hinv).
Qed.

Section Answered.

Context (tok : AssumeRoleResponse) (p : string) (r : InvokeResponse).
Hypothesis Hsts : sts_assume_role w arn "VPCE_PERMISSIONS" = inr tok.
Hypothesis Hdumps : json_dumps lib event = inr p.
Hypothesis Hinvoke :
  lambda_invoke w (session_client (Credentials tok)) fname "Tail" p = inr r.

(** The remote-failure branch where it is reached.  When the payload decodes
    to a nested statusCode, the execution-error flag is present or the nested
    statusCode is not 200, and the log tail is present and decodes, the
    result has statusCode 400 whatever the nested code, responseStatus
    FAILED, and the JSON-encoded decoded log tail as body. *)
Theorem remote_failure_flattened c log :
  nested_status_code lib (Payload r) = inr c →
  is_Some (FunctionError r) ∨ py_eq_int c 200 = false →
  log_tail lib r = inr log →
  invoke_lambda_in_the_networking_account lib w arn fname event [] =
    (inr (failed_result event (json_encode_str lib log)),
     relay_calls arn fname tok p)
  ∧ lambda_handler lib w event context [] =
      (inr (failed_result event (json_encode_str lib log)),
       relay_calls arn fname tok p)
  ∧ failed_result event (json_encode_str lib log) !! "statusCode"
    = Some (PyInt 400).
Proof.
  intros Hc Hfail Hlog.
  assert (invoke_lambda_in_the_networking_account lib w arn fname event [] =
          (inr (failed_result event (json_encode_str lib log)),
           relay_calls arn fname tok p)) as Hinv.
  { rewrite invoke_of_try, (try_answered _ _ _ _ _ _ _ _ Hsts Hdumps Hinvoke).
    rewrite Hc, Hlog.
    assert (flagged r || negb (py_eq_int c 200) = true) as ->; [|done].
    unfold flagged. destruct Hfail as [[s ->]| ->]; [done|].
    by destruct (FunctionError r). }
  split; [done|]. split; [|done]. by apply handler_after_return.
Qed.

(** C4.  With no execution-error flag and a nested statusCode equal to 200,
    the result is the transport answer annotated from the transport
    metadata: its statusCode is the transport status code, and its
    responseStatus is SUCCESS exactly when that code is 200, FAILED
    otherwise. *)
Theorem remote_success_uses_transport_status c :
  nested_status_code lib (Payload r) = inr c →
  FunctionError r = None →
  py_eq_int c 200 = true →
  ∃ d,
    invoke_lambda_in_the_networking_account lib w arn fname event []
    = (inr d, relay_calls arn fname tok p)
    ∧ lambda_handler lib w event context [] = (inr d, relay_calls arn fname tok p)
    ∧ d = annotated_response r
    ∧ d !! "statusCode" = Some (PyInt (HTTPStatusCode (ResponseMetadata r)))
    ∧ (d !! "responseStatus" = Some (PyStr "SUCCESS")
       ↔ HTTPStatusCode (ResponseMetadata r) = 200)
    ∧ (d !! "responseStatus" = Some (PyStr "FAILED")
       ↔ HTTPStatusCode (ResponseMetadata r) ≠ 200).
Proof.
  intros Hc Hflag H200. exists (annotated_response r).
  assert (invoke_lambda_in_the_networking_account lib w arn fname event [] =
          (inr (annotated_response r), relay_calls arn fname tok p)) as Hinv.
  { rewrite invoke_of_try, (try_answered _ _ _ _ _ _ _ _ Hsts Hdumps Hinvoke).
    rewrite Hc, H200. unfold flagged. by rewrite Hflag. }
  split; [done|]. split; [by apply handler_after_return|]. split; [done|].
  split; [apply annotated_response_statusCode|].
  rewrite annotated_response_responseStatus.
  destruct (Z.eqb_spec (HTTPStatusCode (ResponseMetadata r)) 200) as [Heq|Hne];
    split; split; try done; by intros [=].
Qed.

(** C5.  When the payload does not decode to a nested statusCode, the decode
    error is not a ClientError, leaves the invocation step as an exception,
    and the top-level clause turns it into the mapping with statusCode 400,
    responseStatus FAILED and the stringified error as body. *)
Theorem malformed_payload_reaches_catch_all ex :
  nested_status_code lib (Payload r) = inl ex →
  is_ClientError ex = false
  ∧ invoke_lambda_in_the_networking_account lib w arn fname event []
    = (inl ex, relay_calls arn fname tok p)
  ∧ lambda_handler lib w event context []
    = (inr (failed_result event (exn_str ex)), relay_calls arn fname tok p).
Proof.
  intros Hc.
  pose proof (nested_status_code_not_ClientError _ _ _ Hc) as Hclass.
  assert (invoke_lambda_in_the_networking_account lib w arn fname event [] =
          (inl ex, relay_calls arn fname tok p)) as Hinv.
  { rewrite invoke_of_try, (try_answered _ _ _ _ _ _ _ _ Hsts Hdumps Hinvoke).
    by rewrite Hc, Hclass. }
  split; [done|]. split; [done|]. by apply handler_after_raise.
Qed.

(** C10.  When the remote-failure branch is taken and the transport answer
    has no LogResult key, the KeyError leaves the invocation step as an
    exception, and the top-level clause turns it into the mapping with
    statusCode 400, responseStatus FAILED and the stringified KeyError as
    body. *)
Theorem missing_log_tail_reaches_catch_all c :
  nested_status_code lib (Payload r) = inr c →
  is_Some (FunctionError r) ∨ py_eq_int c 200 = false →
  LogResult r = None →
  invoke_lambda_in_the_networking_account lib w arn fname event []
  = (inl (KeyError "LogResult"), relay_calls arn fname tok p)
  ∧ lambda_handler lib w event context []
    = (inr (failed_result event "'LogResult'"), relay_calls arn fname tok p).
Proof.
  intros Hc Hfail Hlog.
  assert (invoke_lambda_in_the_networking_account lib w arn fname event [] =
          (inl (KeyError "LogResult"), relay_calls arn fname tok p)) as Hinv.
  { rewrite invoke_of_try, (try_answered _ _ _ _ _ _ _ _ Hsts Hdumps Hinvoke).
    rewrite Hc. unfold log_tail. rewrite Hlog.
    assert (flagged r || negb (py_eq_int c 200) = true) as ->; [|done].
    unfold flagged. destruct Hfail as [[s ->]| ->]; [done|].
    by destruct (FunctionError r). }
  split; [done|]. by rewrite (handler_after_raise _ _ Hinv).
Qed.

End Answered.

End Configured.

(** ** The event, in and out *)

Section Passthrough.

Context (lib : PyLib) (w : World) (event context : pyval).

(** C8.  Whenever the mapping the handler returns has an event entry, the
    entry is the input event; and every remote invocation made on the way
    carries the serialised input event as its payload, to the configured
    function, with the log tail requested. *)
Theorem event_passthrough res t :
  lambda_handler lib w event context [] = (res, t) →
  (∀ d v, res = inr d → d !! "event" = Some v → v = event)
  ∧ (∀ client fn logtype p,
       Invoke client fn logtype p ∈ t →
       json_dumps lib event = inr p
       ∧ environ w !! "FUNC_NAME" = Some fn
       ∧ logtype = "Tail").
Proof.
  destruct (environ w !! "VPCE_PERM_ROLE_ARN") as [arn|] eqn:Harn; cycle 1.
  { unfold lambda_handler, environ_getitem. rewrite Harn. run_monad.
    intros [= <- <-]. split; [done|]. intros ? ? ? ? Hin. by inversion Hin. }
  destruct (environ w !! "FUNC_NAME") as [fname|] eqn:Hfname; cycle 1.
  { unfold lambda_handler, environ_getitem. rewrite Harn, Hfname. run_monad.
    intros [= <- <-]. split; [done|]. intros ? ? ? ? Hin. by inversion Hin. }
  rewrite (handler_of_invoke _ _ _ _ _ _ Harn Hfname).
  destruct (invoke_lambda_in_the_networking_account lib w arn fname event [])
    as [o t'] eqn:Hinv.
  intros Hres. split.
  - intros d v -> Hv. destruct o as [ex|d'].
    + injection Hres as <- <-. unfold failed_result in Hv. by simplify_map_eq.
    + destruct (invoke_returns _ _ _ _ _ _ _ Hinv)
        as [[body ->]|(tok & p & r & c & _ & _ & _ & _ & _ & _ & ->)].
      * injection Hres as <- <-. unfold failed_result in Hv. by simplify_map_eq.
      * rewrite annotated_response_statusCode in Hres. injection Hres as <- <-.
        by rewrite annotated_response_event in Hv.
  - assert (t = t') as ->.
    { destruct o as [ex|d']; [by injection Hres|].
      destruct (d' !! "statusCode"); by injection Hres. }
    intros client fn logtype q Hin.
    destruct (invoke_calls _ _ _ _ _ _ _ Hinv) as [->|(tok & p & Hdumps & ->)].
    + apply list_elem_of_singleton in Hin. discriminate Hin.
    + unfold relay_calls in Hin.
      apply elem_of_cons in Hin as [Hin|Hin]; [discriminate Hin|].
      apply list_elem_of_singleton in Hin. by injection Hin as -> -> -> ->.
Qed.

(** C9.  [handle_error] does not look at its statusCode and response_status
    arguments: whatever is passed, 500 included, the mapping it returns has
    statusCode 400 and responseStatus FAILED, and is the same mapping for
    any other choice of the two. *)
Theorem handle_error_ignores_status_arguments error_message statusCode response_status :
  handle_error lib event error_message statusCode response_status !! "statusCode"
  = Some (PyInt 400)
  ∧ handle_error lib event error_message statusCode response_status !! "responseStatus"
    = Some (PyStr "FAILED")
  ∧ handle_error lib event error_message statusCode response_status
    = handle_error lib event error_message (PyInt 500) "FAILED"
  ∧ ∀ statusCode' response_status',
      handle_error lib event error_message statusCode' response_status'
      = handle_error lib event error_message statusCode response_status.
Proof. by repeat split. Qed.

End Passthrough.

(** * Further properties of the source *)

(** ** The status annotation on any response mapping *)

Section Annotation.

Context (response : gmap string pyval).

(** The annotation in closed form: the exception of the status lookup, or
    the mapping with the two entries written. *)
Lemma handle_response_status_and_msg_closed t :
  handle_response_status_and_msg response t =
    match transport_status response with
    | inl ex => (inl ex, t)
    | inr code =>
        (inr (<["statusCode" := code]>
                (<["responseStatus" :=
                     PyStr (if py_eq_int code 200 then "SUCCESS" else "FAILED")]>
                   response)), t)
    end.
Proof.
  unfold handle_response_status_and_msg, transport_status. run_monad.
  destruct (dict_getitem response "ResponseMetadata") as [ex|md] eqn:Hmd; [done|].
  simpl. destruct (py_getitem md "HTTPStatusCode") as [ex|code] eqn:Hcode; [done|].
  simpl. unfold dict_getitem in *.
  destruct (response !! "ResponseMetadata") as [md'|] eqn:Hlook; [|done].
  injection Hmd as ->.
  destruct (py_eq_int code 200); simplify_map_eq; by rewrite Hcode.
Qed.

(** X1.  The annotation returns exactly when the transport status can be
    read: the mapping has a ResponseMetadata entry that is a dictionary with
    an HTTPStatusCode entry.  Otherwise it raises, and the exception is a
    KeyError naming the missing key or a TypeError for a ResponseMetadata
    that is not a dictionary. *)
Theorem annotation_returns_iff_status_readable t :
  ((∃ d, handle_response_status_and_msg response t = (inr d, t))
   ↔ ∃ md code, response !! "ResponseMetadata" = Some (PyDict md)
                ∧ md !! "HTTPStatusCode" = Some code)
  ∧ (response !! "ResponseMetadata" = None →
     handle_response_status_and_msg response t
     = (inl (KeyError "ResponseMetadata"), t))
  ∧ (∀ md, response !! "ResponseMetadata" = Some (PyDict md) →
           md !! "HTTPStatusCode" = None →
           handle_response_status_and_msg response t
           = (inl (KeyError "HTTPStatusCode"), t))
  ∧ (∀ v, response !! "ResponseMetadata" = Some v →
          (∀ md, v ≠ PyDict md) →
          ∃ msg, handle_response_status_and_msg response t
                 = (inl (TypeError msg), t)).
Proof.
  rewrite handle_response_status_and_msg_closed.
  unfold transport_status, dict_getitem.
  split; [split|split; [|split]].
  - intros [d Hd]. destruct (response !! "ResponseMetadata") as [v|]; [|done].
    destruct v; try done. simpl in Hd. unfold dict_getitem in Hd.
    destruct (d0 !! "HTTPStatusCode") as [code|] eqn:Hcode; [|done].
    by exists d0, code.
  - intros (md & code & -> & Hcode). simpl. unfold dict_getitem.
    rewrite Hcode. by eexists.
  - by intros ->.
  - intros md -> Hcode. simpl. unfold dict_getitem. by rewrite Hcode.
  - intros v -> Hv. destruct v; simpl; try by eexists.
    by destruct (Hv d).
Qed.

(** X2.  When the annotation returns, it has made no call, every entry other
    than responseStatus and statusCode is the response's own, the key set has
    grown by at most those two, statusCode is the transport status as read,
    and responseStatus is SUCCESS when that status equals 200 and FAILED
    otherwise. *)
Theorem annotation_frame d t t' :
  handle_response_status_and_msg response t = (inr d, t') →
  t' = t
  ∧ (∀ key, key ≠ "responseStatus" → key ≠ "statusCode" →
            d !! key = response !! key)
  ∧ dom d = dom response ∪ {[ "responseStatus"; "statusCode" ]}
  ∧ ∃ code,
      transport_status response = inr code
      ∧ d !! "statusCode" = Some code
      ∧ d !! "responseStatus"
        = Some (PyStr (if py_eq_int code 200 then "SUCCESS" else "FAILED")).
Proof.
  rewrite handle_response_status_and_msg_closed.
  destruct (transport_status response) as [ex|code]; [done|].
  intros [= <- <-]. split; [done|]. split; [|split].
  - intros key Hrs Hsc. by simplify_map_eq.
  - rewrite !dom_insert_L. apply set_eq. intros key.
    rewrite !elem_of_union, !elem_of_singleton. tauto.
  - exists code. split; [done|]. by simplify_map_eq.
Qed.

(** X3.  The annotation is idempotent: run on its own result, it returns
    that result unchanged. *)
Theorem annotation_idempotent d t t' :
  handle_response_status_and_msg response t = (inr d, t') →
  handle_response_status_and_msg d t' = (inr d, t').
Proof.
  rewrite handle_response_status_and_msg_closed.
  destruct (transport_status response) as [ex|code] eqn:Hstatus; [done|].
  intros [= <- <-]. unfold handle_response_status_and_msg.
  unfold transport_status, dict_getitem in Hstatus.
  destruct (response !! "ResponseMetadata") as [md|] eqn:Hmd; [|done].
  assert (∀ status : pyval,
            <["statusCode" := code]>
              (<["responseStatus" := status]>
                 (<["statusCode" := code]> (<["responseStatus" := status]> response)))
            = <["statusCode" := code]> (<["responseStatus" := status]> response))
    as Hsame.
  { intros status. apply map_eq. intros key.
    destruct (decide (key = "statusCode")) as [Hsc|Hsc];
      destruct (decide (key = "responseStatus")) as [Hrs|Hrs];
      by simplify_map_eq. }
  run_monad. unfold dict_getitem. simplify_map_eq. rewrite Hstatus. simpl.
  destruct (py_eq_int code 200); simplify_map_eq; rewrite Hstatus; simpl;
    by rewrite Hsame.
Qed.

End Annotation.

(** ** The handler: configuration, calls and status *)

Section Handler.

Context (lib : PyLib) (w : World) (event context : pyval).

(** X4.  The handler raises exactly for a missing configuration key.  A
    missing key is a KeyError naming that key, raised before any SDK call is
    made, the role reference being looked up first; and an exception leaving
    the handler is always such a KeyError, with no call made. *)
Theorem handler_raises_iff_unconfigured :
  (environ w !! "VPCE_PERM_ROLE_ARN" = None →
   lambda_handler lib w event context []
   = (inl (KeyError "VPCE_PERM_ROLE_ARN"), []))
  ∧ (is_Some (environ w !! "VPCE_PERM_ROLE_ARN") →
     environ w !! "FUNC_NAME" = None →
     lambda_handler lib w event context [] = (inl (KeyError "FUNC_NAME"), []))
  ∧ (∀ ex t,
       lambda_handler lib w event context [] = (inl ex, t) →
       t = []
       ∧ ((ex = KeyError "VPCE_PERM_ROLE_ARN"
           ∧ environ w !! "VPCE_PERM_ROLE_ARN" = None)
          ∨ (ex = KeyError "FUNC_NAME" ∧ environ w !! "FUNC_NAME" = None))).
Proof.
  split; [|split].
  - unfold lambda_handler, environ_getitem. intros ->. by run_monad.
  - unfold lambda_handler, environ_getitem. intros [arn ->] ->. by run_monad.
  - intros ex t.
    destruct (environ w !! "VPCE_PERM_ROLE_ARN") as [arn|] eqn:Harn; cycle 1.
    { unfold lambda_handler, environ_getitem. rewrite Harn. run_monad.
      intros [= <- <-]. split; [done|]. by left. }
    destruct (environ w !! "FUNC_NAME") as [fname|] eqn:Hfname; cycle 1.
    { unfold lambda_handler, environ_getitem. rewrite Harn, Hfname. run_monad.
      intros [= <- <-]. split; [done|]. by right. }
    rewrite (handler_of_invoke _ _ _ _ _ _ Harn Hfname).
    destruct (invoke_lambda_in_the_networking_account lib w arn fname event [])
      as [[ex'|d] t']; [done|].
    by destruct (d !! "statusCode").
Qed.

(** X5.  The SDK is called at most twice, in a fixed order and never again:
    the calls of a run are none, or one AssumeRole, or one AssumeRole
    followed by one Invoke.  Any call is made under a complete
    configuration; the AssumeRole is for the configured role under the
    session name VPCE_PERMISSIONS; and an Invoke is made only after the role
    assumption succeeded and the event serialised, to the configured
    function, with exactly the credentials the provider returned, the log
    tail requested and the serialised event as payload. *)
Theorem sdk_call_discipline res t :
  lambda_handler lib w event context [] = (res, t) →
  t = []
  ∨ ∃ arn fname,
      environ w !! "VPCE_PERM_ROLE_ARN" = Some arn
      ∧ environ w !! "FUNC_NAME" = Some fname
      ∧ (t = [AssumeRole arn "VPCE_PERMISSIONS"]
         ∨ ∃ tok p,
             sts_assume_role w arn "VPCE_PERMISSIONS" = inr tok
             ∧ json_dumps lib event = inr p
             ∧ t = [AssumeRole arn "VPCE_PERMISSIONS";
                    Invoke {| aws_access_key_id := AccessKeyId (Credentials tok);
                              aws_secret_access_key := SecretAccessKey (Credentials tok);
                              aws_session_token := SessionToken (Credentials tok) |}
                      fname "Tail" p]).
Proof.
  destruct (environ w !! "VPCE_PERM_ROLE_ARN") as [arn|] eqn:Harn; cycle 1.
  { unfold lambda_handler, environ_getitem. rewrite Harn. run_monad.
    intros [= <- <-]. by left. }
  destruct (environ w !! "FUNC_NAME") as [fname|] eqn:Hfname; cycle 1.
  { unfold lambda_handler, environ_getitem. rewrite Harn, Hfname. run_monad.
    intros [= <- <-]. by left. }
  rewrite (handler_of_invoke _ _ _ _ _ _ Harn Hfname).
  destruct (invoke_lambda_in_the_networking_account lib w arn fname event [])
    as [o t'] eqn:Hinv.
  intros Hres. assert (t = t') as ->.
  { destruct o as [ex|d]; [by injection Hres|].
    destruct (d !! "statusCode"); by injection Hres. }
  clear Hres. right. exists arn, fname. split; [done|]. split; [done|].
  rewrite invoke_of_try in Hinv.
  assert (∀ o' calls,
            (match o' with
             | inl ex =>
                 if is_ClientError ex
                 then (inr (handle_error lib event (unable_to_invoke ex)
                              (PyInt 500) "FAILED"), calls)
                 else (inl ex, calls)
             | inr d => (inr d, calls)
             end) = (o, t') → t' = calls) as Hsame.
  { intros [ex|d] calls; [destruct (is_ClientError ex)|]; by intros [= <- <-]. }
  destruct (sts_assume_role w arn "VPCE_PERMISSIONS") as [ex|tok] eqn:Hsts.
  { rewrite (try_assume_role_failed _ _ _ _ _ _ Hsts) in Hinv.
    left. by apply (Hsame (inl ex)). }
  destruct (json_dumps lib event) as [msg|p] eqn:Hdumps.
  { rewrite (try_dumps_failed _ _ _ _ _ _ _ Hsts Hdumps) in Hinv.
    left. by apply (Hsame (inl (TypeError msg))). }
  right. exists tok, p. split; [done|]. split; [done|].
  destruct (lambda_invoke w (session_client (Credentials tok)) fname "Tail" p)
    as [ex|r] eqn:Hinvoke.
  - rewrite (try_invoke_failed _ _ _ _ _ _ _ _ Hsts Hdumps Hinvoke) in Hinv.
    by apply (Hsame (inl ex)).
  - rewrite (try_answered _ _ _ _ _ _ _ _ Hsts Hdumps Hinvoke) in Hinv.
    by eapply Hsame, Hinv.
Qed.

(** X6.  SUCCESS is sound: when the returned mapping says SUCCESS, the role
    was assumed, the event serialised, the function answered without an
    execution-error flag, its payload decoded to a nested statusCode equal
    to 200, the transport status was 200, and the mapping's statusCode is
    200. *)
Theorem success_is_sound d t :
  lambda_handler lib w event context [] = (inr d, t) →
  d !! "responseStatus" = Some (PyStr "SUCCESS") →
  ∃ arn fname tok p r c,
    environ w !! "VPCE_PERM_ROLE_ARN" = Some arn
    ∧ environ w !! "FUNC_NAME" = Some fname
    ∧ sts_assume_role w arn "VPCE_PERMISSIONS" = inr tok
    ∧ json_dumps lib event = inr p
    ∧ lambda_invoke w (session_client (Credentials tok)) fname "Tail" p = inr r
    ∧ FunctionError r = None
    ∧ nested_status_code lib (Payload r) = inr c
    ∧ py_eq_int c 200 = true
    ∧ HTTPStatusCode (ResponseMetadata r) = 200
    ∧ d !! "statusCode" = Some (PyInt 200).
Proof.
  destruct (environ w !! "VPCE_PERM_ROLE_ARN") as [arn|] eqn:Harn; cycle 1.
  { unfold lambda_handler, environ_getitem. rewrite Harn. by run_monad. }
  destruct (environ w !! "FUNC_NAME") as [fname|] eqn:Hfname; cycle 1.
  { unfold lambda_handler, environ_getitem. rewrite Harn, Hfname. by run_monad. }
  rewrite (handler_of_invoke _ _ _ _ _ _ Harn Hfname).
  destruct (invoke_lambda_in_the_networking_account lib w arn fname event [])
    as [[ex|d'] t'] eqn:Hinv.
  { intros [= <- <-]. unfold failed_result. by simplify_map_eq. }
  destruct (invoke_returns _ _ _ _ _ _ _ Hinv)
    as [[body ->]|(tok & p & r & c & Hsts & Hdumps & Hr & Hc & Hflag & H200 & ->)].
  { intros [= <- <-]. unfold failed_result. by simplify_map_eq. }
  rewrite annotated_response_statusCode. intros [= <- <-].
  rewrite annotated_response_responseStatus, annotated_response_statusCode.
  destruct (Z.eqb_spec (HTTPStatusCode (ResponseMetadata r)) 200) as [Hhttp|];
    [|by intros [=]].
  intros _. exists arn, fname, tok, p, r, c. rewrite Hhttp.
  repeat (split; [done|]). split; [|done].
  unfold flagged in Hflag. by destruct (FunctionError r).
Qed.

(** X7.  The two status entries of a returned mapping agree: statusCode is
    200 exactly when responseStatus is SUCCESS. *)
Theorem status_entries_agree d t :
  lambda_handler lib w event context [] = (inr d, t) →
  d !! "statusCode" = Some (PyInt 200)
  ↔ d !! "responseStatus" = Some (PyStr "SUCCESS").
Proof.
  destruct (environ w !! "VPCE_PERM_ROLE_ARN") as [arn|] eqn:Harn; cycle 1.
  { unfold lambda_handler, environ_getitem. rewrite Harn. by run_monad. }
  destruct (environ w !! "FUNC_NAME") as [fname|] eqn:Hfname; cycle 1.
  { unfold lambda_handler, environ_getitem. rewrite Harn, Hfname. by run_monad. }
  rewrite (handler_of_invoke _ _ _ _ _ _ Harn Hfname).
  assert (∀ body,
            failed_result event body !! "statusCode" = Some (PyInt 200)
            ↔ failed_result event body !! "responseStatus" = Some (PyStr "SUCCESS"))
    as Hfailed.
  { intros body. unfold failed_result. by simplify_map_eq. }
  destruct (invoke_lambda_in_the_networking_account lib w arn fname event [])
    as [[ex|d'] t'] eqn:Hinv.
  { intros [= <- <-]. apply Hfailed. }
  destruct (invoke_returns _ _ _ _ _ _ _ Hinv)
    as [[body ->]|(tok & p & r & c & _ & _ & _ & _ & _ & _ & ->)].
  { intros [= <- <-]. apply Hfailed. }
  rewrite annotated_response_statusCode. intros [= <- <-].
  rewrite annotated_response_responseStatus, annotated_response_statusCode.
  destruct (Z.eqb_spec (HTTPStatusCode (ResponseMetadata r)) 200) as [->|Hne];
    [done|].
  split; intros [=]. by destruct Hne.
Qed.

Section Keyed.

Context (arn fname : string).
Hypothesis Harn : environ w !! "VPCE_PERM_ROLE_ARN" = Some arn.
Hypothesis Hfname : environ w !! "FUNC_NAME" = Some fname.

(** X8.  An event that cannot be serialised: the role is assumed first, the
    remote function is never invoked, and the handler returns the mapping
    with statusCode 400, responseStatus FAILED and the TypeError's text as
    body. *)
Theorem unserialisable_event_never_invoked tok msg :
  sts_assume_role w arn "VPCE_PERMISSIONS" = inr tok →
  json_dumps lib event = inl msg →
  invoke_lambda_in_the_networking_account lib w arn fname event []
  = (inl (TypeError msg), [AssumeRole arn "VPCE_PERMISSIONS"])
  ∧ lambda_handler lib w event context []
    = (inr (failed_result event msg), [AssumeRole arn "VPCE_PERMISSIONS"]).
Proof.
  intros Hsts Hdumps.
  assert (invoke_lambda_in_the_networking_account lib w arn fname event []
          = (inl (TypeError msg), [AssumeRole arn "VPCE_PERMISSIONS"])) as Hinv.
  { rewrite invoke_of_try.
    by rewrite (try_dumps_failed _ _ _ _ _ _ _ Hsts Hdumps). }
  split; [done|]. by rewrite (handler_after_raise _ _ _ _ _ _ Harn Hfname _ _ Hinv).
Qed.

Section Invoked.

Context (tok : AssumeRoleResponse) (p : string).
Hypothesis Hsts : sts_assume_role w arn "VPCE_PERMISSIONS" = inr tok.
Hypothesis Hdumps : json_dumps lib event = inr p.

(** X9.  When the remote call fails with an SDK exception that is not a
    ClientError, the except clause of the invocation step does not apply:
    the exception leaves the step, and the top-level clause returns the
    mapping with statusCode 400, responseStatus FAILED and the exception's
    own text as body, with no prefix and no JSON encoding. *)
Theorem non_client_failure_reaches_catch_all ex :
  lambda_invoke w (session_client (Credentials tok)) fname "Tail" p = inl ex →
  is_ClientError ex = false →
  invoke_lambda_in_the_networking_account lib w arn fname event []
  = (inl ex, relay_calls arn fname tok p)
  ∧ lambda_handler lib w event context []
    = (inr (failed_result event (exn_str ex)), relay_calls arn fname tok p).
Proof.
  intros Hinvoke Hclass.
  assert (invoke_lambda_in_the_networking_account lib w arn fname event []
          = (inl ex, relay_calls arn fname tok p)) as Hinv.
  { rewrite invoke_of_try.
    by rewrite (try_invoke_failed _ _ _ _ _ _ _ _ Hsts Hdumps Hinvoke), Hclass. }
  split; [done|]. by apply (handler_after_raise _ _ _ _ _ _ Harn Hfname).
Qed.

Context (r : InvokeResponse).
Hypothesis Hinvoke :
  lambda_invoke w (session_client (Credentials tok)) fname "Tail" p = inr r.

(** X10.  When the remote-failure branch is taken and the log tail is
    present but cannot be decoded, from base64 or from UTF-8, the decoder's
    exception leaves the invocation step and the top-level clause returns the
    mapping with statusCode 400, responseStatus FAILED and the decoder's
    message as body. *)
Theorem undecodable_log_tail_reaches_catch_all c encoded msg :
  nested_status_code lib (Payload r) = inr c →
  is_Some (FunctionError r) ∨ py_eq_int c 200 = false →
  LogResult r = Some encoded →
  b64decode lib encoded = inl msg
  ∨ (∃ raw, b64decode lib encoded = inr raw ∧ utf8_decode lib raw = inl msg) →
  ∃ ex,
    (ex = BinasciiError msg ∨ ex = UnicodeDecodeError msg)
    ∧ invoke_lambda_in_the_networking_account lib w arn fname event []
      = (inl ex, relay_calls arn fname tok p)
    ∧ lambda_handler lib w event context []
      = (inr (failed_result event msg), relay_calls arn fname tok p).
Proof.
  intros Hc Hfail Hlog Hdecode.
  assert (flagged r || negb (py_eq_int c 200) = true) as Hbranch.
  { unfold flagged. destruct Hfail as [[s ->]| ->]; [done|].
    by destruct (FunctionError r). }
  assert (∃ ex, (ex = BinasciiError msg ∨ ex = UnicodeDecodeError msg)
                ∧ log_tail lib r = inl ex) as (ex & Hex & Htail).
  { unfold log_tail. rewrite Hlog.
    destruct Hdecode as [->|(raw & -> & ->)]; eexists; split; try done;
      [by left|by right]. }
  exists ex. split; [done|].
  assert (invoke_lambda_in_the_networking_account lib w arn fname event []
          = (inl ex, relay_calls arn fname tok p)) as Hinv.
  { rewrite invoke_of_try, (try_answered _ _ _ _ _ _ _ _ Hsts Hdumps Hinvoke).
    rewrite Hc, Hbranch, Htail. by destruct Hex as [->| ->]. }
  split; [done|].
  rewrite (handler_after_raise _ _ _ _ _ _ Harn Hfname _ _ Hinv).
  by destruct Hex as [->| ->].
Qed.

(** X11.  A nested statusCode that is not a number, such as the string
    "200", null or a boolean, is not equal to 200: even with transport
    status 200 and no execution-error flag the remote-failure branch is
    taken, and with a decodable log tail the result has statusCode 400,
    responseStatus FAILED and the JSON-encoded log tail as body. *)
Theorem non_numeric_status_is_failure c log :
  nested_status_code lib (Payload r) = inr c →
  is_number c = false →
  log_tail lib r = inr log →
  py_eq_int c 200 = false
  ∧ lambda_handler lib w event context []
    = (inr (failed_result event (json_encode_str lib log)),
       relay_calls arn fname tok p).
Proof.
  intros Hc Hnum Hlog.
  assert (py_eq_int c 200 = false) as Hne.
  { destruct c; try done. by destruct b. }
  split; [done|].
  apply (handler_after_return _ _ _ _ _ _ Harn Hfname).
  rewrite invoke_of_try, (try_answered _ _ _ _ _ _ _ _ Hsts Hdumps Hinvoke).
  rewrite Hc, Hne, Hlog. by rewrite orb_true_r.
Qed.

End Invoked.

End Keyed.

End Handler.

(** * Examples on the fixtures *)

Module Examples.

Import Fixture.

(** The fixture codecs on the documents of the examples. *)
Example b64_boom : b64decode lib "Ym9vbQ==" = inr "boom".
Proof. reflexivity. Qed.

Example b64_denied : b64decode lib "ZGVuaWVk" = inr "denied".
Proof. reflexivity. Qed.

Example b64_bad_padding : b64decode lib "Ym9" = inl "Incorrect padding".
Proof. reflexivity. Qed.

Example dumps_event : json_dumps lib event = inr event_json.
Proof. vm_compute; reflexivity. Qed.

Example encode_str_escapes :
  json_encode_str lib ("a" +:+ dq +:+ "b\c")
  = dq +:+ "a\" +:+ dq +:+ "b\\c" +:+ dq.
Proof. vm_compute; reflexivity. Qed.

(** Remote success: nested 200, transport 200. *)
Example scenario_success :
  ∃ d,
    lambda_handler lib (hub "grant-ok") event PyNone [] = (inr d, calls "grant-ok")
    ∧ d !! "statusCode" = Some (PyInt 200)
    ∧ d !! "responseStatus" = Some (PyStr "SUCCESS").
Proof.
  exists (annotated_response ok_answer).
  split; [vm_compute; reflexivity|].
  by rewrite annotated_response_statusCode, annotated_response_responseStatus.
Qed.

(** Application-level denial: nested 403 is flattened to 400. *)
Example scenario_denied :
  lambda_handler lib (hub "grant-denied") event PyNone []
  = (inr (failed_result event (dq +:+ "denied" +:+ dq)), calls "grant-denied").
Proof. vm_compute; reflexivity. Qed.

(** Function not found: the local clause answers. *)
Example scenario_not_found :
  invoke_lambda_in_the_networking_account lib (hub "grant-missing")
    hub_role "grant-missing" event []
  = (inr (failed_result event
            (dq +:+ "Unable to invoke VPC Endpoint permission Lambda function in NETWORK account: An error occurred (ResourceNotFoundException) when calling the Invoke operation: Function not found" +:+ dq)),
     calls "grant-missing").
Proof. vm_compute; reflexivity. Qed.

(** The handler raises when a configuration key is missing, and a refused
    role assumption ends in a body that is not the stringified exception. *)
Lemma lambda_handler_unconfigured_raises :
  lambda_handler lib unconfigured event PyNone []
  = (inl (KeyError "VPCE_PERM_ROLE_ARN"), [])
  ∧ lambda_handler lib half_configured event PyNone []
    = (inl (KeyError "FUNC_NAME"), [])
  ∧ (¬ ∃ d t, lambda_handler lib unconfigured event PyNone [] = (inr d, t))
  ∧ (∃ d t,
       lambda_handler lib refused event PyNone [] = (inr d, t)
       ∧ invoke_lambda_try lib refused other_role "grant-ok" event []
         = (inl access_denied, t)
       ∧ d !! "body" ≠ Some (PyStr (exn_str access_denied))).
Proof.
  split; [vm_compute; reflexivity|]. split; [vm_compute; reflexivity|]. split.
  - intros (d & t & H). vm_compute in H. discriminate H.
  - eexists _, _. split; [vm_compute; reflexivity|].
    split; [vm_compute; reflexivity|]. vm_compute. by intros [=].
Qed.

Lemma lambda_handler_fault_barrier_witness :
  environ (hub "grant-garbled") !! "VPCE_PERM_ROLE_ARN" = Some hub_role
  ∧ environ (hub "grant-garbled") !! "FUNC_NAME" = Some "grant-garbled"
  ∧ ∃ d t,
      lambda_handler lib (hub "grant-garbled") event PyNone [] = (inr d, t)
      ∧ ∀ ex t',
          invoke_lambda_try lib (hub "grant-garbled") hub_role "grant-garbled" event []
          = (inl ex, t') →
          t = t'
          ∧ if is_ClientError ex
            then invoke_lambda_in_the_networking_account lib (hub "grant-garbled")
                   hub_role "grant-garbled" event [] = (inr d, t)
                 ∧ d = failed_result event (json_encode_str lib (unable_to_invoke ex))
            else invoke_lambda_in_the_networking_account lib (hub "grant-garbled")
                   hub_role "grant-garbled" event [] = (inl ex, t)
                 ∧ d = failed_result event (exn_str ex).
Proof.
  split; [reflexivity|]. split; [reflexivity|].
  apply (lambda_handler_fault_barrier lib (hub "grant-garbled") event PyNone
           hub_role "grant-garbled"); reflexivity.
Defined.



(** C3 (code defect).  A crashed remote function, answered as the Lambda
    service answers it: the execution-error flag is set and the log tail
    decodes to "boom", but the payload is the error document and has no
    statusCode.  Line 81 raises KeyError before line 84 tests the flag, so
    the branch that returns the log tail is not reached: the invocation step
    raises, and the handler's body is the KeyError's text, not the
    JSON-encoded log tail. *)
Lemma crash_answer_loses_log_tail :
  lambda_invoke (hub "grant-crash") (session_client (Credentials token))
    "grant-crash" "Tail" event_json = inr crash_answer
  ∧ is_Some (FunctionError crash_answer)
  ∧ log_tail lib crash_answer = inr "boom"
  ∧ invoke_lambda_in_the_networking_account lib (hub "grant-crash")
      hub_role "grant-crash" event []
    = (inl (KeyError "statusCode"), calls "grant-crash")
  ∧ lambda_handler lib (hub "grant-crash") event PyNone []
    = (inr (failed_result event "'statusCode'"), calls "grant-crash")
  ∧ failed_result event "'statusCode'" !! "body"
    ≠ Some (PyStr (json_encode_str lib "boom")).
Proof.
  split; [reflexivity|]. split; [by eexists|]. split; [vm_compute; reflexivity|].
  split; [vm_compute; reflexivity|]. split; [vm_compute; reflexivity|].
  vm_compute. by intros [=].
Qed.

Lemma remote_failure_flattened_witness :
  environ (hub "grant-denied") !! "VPCE_PERM_ROLE_ARN" = Some hub_role
  ∧ environ (hub "grant-denied") !! "FUNC_NAME" = Some "grant-denied"
  ∧ nested_status_code lib (Payload denied_answer) = inr (PyInt 403)
  ∧ log_tail lib denied_answer = inr "denied"
  ∧ invoke_lambda_in_the_networking_account lib (hub "grant-denied")
      hub_role "grant-denied" event []
    = (inr (failed_result event (json_encode_str lib "denied")), calls "grant-denied")
  ∧ lambda_handler lib (hub "grant-denied") event PyNone []
    = (inr (failed_result event (json_encode_str lib "denied")), calls "grant-denied")
  ∧ failed_result event (json_encode_str lib "denied") !! "statusCode"
    = Some (PyInt 400).
Proof.
  split; [reflexivity|]. split; [reflexivity|].
  split; [vm_compute; reflexivity|]. split; [vm_compute; reflexivity|].
  apply (remote_failure_flattened lib (hub "grant-denied") event PyNone
           hub_role "grant-denied" eq_refl eq_refl token event_json denied_answer
           eq_refl eq_refl eq_refl (PyInt 403) "denied");
    [vm_compute; reflexivity|by right|vm_compute; reflexivity].
Defined.

Lemma remote_success_uses_transport_status_witness :
  nested_status_code lib (Payload accepted_answer) = inr (PyInt 200)
  ∧ FunctionError accepted_answer = None
  ∧ ∃ d,
      invoke_lambda_in_the_networking_account lib (hub "grant-accepted")
        hub_role "grant-accepted" event []
      = (inr d, calls "grant-accepted")
      ∧ lambda_handler lib (hub "grant-accepted") event PyNone []
        = (inr d, calls "grant-accepted")
      ∧ d = annotated_response accepted_answer
      ∧ d !! "statusCode" = Some (PyInt 202)
      ∧ (d !! "responseStatus" = Some (PyStr "SUCCESS") ↔ 202 = 200)
      ∧ (d !! "responseStatus" = Some (PyStr "FAILED") ↔ 202 ≠ 200).
Proof.
  split; [vm_compute; reflexivity|]. split; [reflexivity|].
  apply (remote_success_uses_transport_status lib (hub "grant-accepted") event PyNone
           hub_role "grant-accepted" eq_refl eq_refl token event_json accepted_answer
           eq_refl eq_refl eq_refl (PyInt 200));
    [vm_compute; reflexivity|reflexivity|reflexivity].
Defined.

Lemma malformed_payload_reaches_catch_all_witness :
  nested_status_code lib (Payload garbled_answer)
  = inl (JSONDecodeError "Expecting value: line 1 column 1 (char 0)")
  ∧ invoke_lambda_in_the_networking_account lib (hub "grant-garbled")
      hub_role "grant-garbled" event []
    = (inl (JSONDecodeError "Expecting value: line 1 column 1 (char 0)"),
       calls "grant-garbled")
  ∧ lambda_handler lib (hub "grant-garbled") event PyNone []
    = (inr (failed_result event "Expecting value: line 1 column 1 (char 0)"),
       calls "grant-garbled").
Proof.
  split; [vm_compute; reflexivity|].
  apply (malformed_payload_reaches_catch_all lib (hub "grant-garbled") event PyNone
           hub_role "grant-garbled" eq_refl eq_refl token event_json garbled_answer
           eq_refl eq_refl eq_refl
           (JSONDecodeError "Expecting value: line 1 column 1 (char 0)")).
  vm_compute; reflexivity.
Defined.

Lemma transport_failure_by_class_witness :
  lambda_invoke (hub "grant-missing") (session_client (Credentials token))
    "grant-missing" "Tail" event_json = inl function_not_found
  ∧ invoke_lambda_in_the_networking_account lib (hub "grant-missing")
      hub_role "grant-missing" event []
    = (inr (handle_error lib event (unable_to_invoke function_not_found)
              (PyInt 500) "FAILED"),
       calls "grant-missing")
  ∧ lambda_handler lib (hub "grant-missing") event PyNone []
    = (inr (failed_result event
              (json_encode_str lib
                 ("Unable to invoke VPC Endpoint permission Lambda function in NETWORK account: "
                    +:+ exn_str function_not_found))),
       calls "grant-missing").
Proof.
  split; [reflexivity|].
  apply (transport_failure_by_class lib (hub "grant-missing") event PyNone
           hub_role "grant-missing" eq_refl eq_refl token event_json
           function_not_found);
    reflexivity.
Defined.

(** A connection failure is a failure of the transport call, and the except
    clause of the invocation step does not convert it: the step raises, and
    the mapping comes from the top-level clause, its body without the prefix
    of the local clause. *)
Lemma connection_failure_skips_local_handler :
  lambda_invoke (hub_more "grant-offline") (session_client (Credentials token))
    "grant-offline" "Tail" event_json = inl offline
  ∧ invoke_lambda_in_the_networking_account lib (hub_more "grant-offline")
      hub_role "grant-offline" event []
    = (inl offline, calls "grant-offline")
  ∧ (¬ ∃ d t,
         invoke_lambda_in_the_networking_account lib (hub_more "grant-offline")
           hub_role "grant-offline" event [] = (inr d, t))
  ∧ lambda_handler lib (hub_more "grant-offline") event PyNone []
    = (inr (failed_result event (exn_str offline)), calls "grant-offline")
  ∧ failed_result event (exn_str offline)
    ≠ handle_error lib event (unable_to_invoke offline) (PyInt 500) "FAILED".
Proof.
  assert (invoke_lambda_in_the_networking_account lib (hub_more "grant-offline")
            hub_role "grant-offline" event []
          = (inl offline, calls "grant-offline")) as Hinv
    by (vm_compute; reflexivity).
  split; [reflexivity|]. split; [exact Hinv|]. split.
  - intros (d & t & H). rewrite Hinv in H. discriminate H.
  - split; [vm_compute; reflexivity|].
    intros H.
    assert (failed_result event (exn_str offline) !! "body"
            = handle_error lib event (unable_to_invoke offline) (PyInt 500) "FAILED"
                !! "body") as Hbody by (by rewrite H).
    vm_compute in Hbody. discriminate Hbody.
Qed.

Lemma identity_assumption_failure_witness :
  sts_assume_role refused other_role "VPCE_PERMISSIONS" = inl access_denied
  ∧ lambda_handler lib refused event PyNone []
    = (inr (failed_result event
              (json_encode_str lib
                 ("Unable to invoke VPC Endpoint permission Lambda function in NETWORK account: "
                    +:+ exn_str access_denied))),
       [AssumeRole other_role "VPCE_PERMISSIONS"]).
Proof.
  split; [reflexivity|].
  apply (identity_assumption_failure lib refused event PyNone other_role "grant-ok"
           eq_refl eq_refl access_denied).
  reflexivity.
Defined.

Lemma event_passthrough_witness :
  lambda_handler lib (hub "grant-denied") event PyNone []
  = (inr (failed_result event (json_encode_str lib "denied")), calls "grant-denied")
  ∧ (∀ v,
       failed_result event (json_encode_str lib "denied") !! "event" = Some v →
       v = event)
  ∧ json_dumps lib event = inr event_json.
Proof.
  assert (lambda_handler lib (hub "grant-denied") event PyNone []
          = (inr (failed_result event (json_encode_str lib "denied")),
             calls "grant-denied")) as Hrun by (vm_compute; reflexivity).
  split; [exact Hrun|].
  destruct (event_passthrough lib (hub "grant-denied") event PyNone _ _ Hrun)
    as [Hevent Hcalls].
  split; [intros v; by apply Hevent|].
  apply (Hcalls (session_client (Credentials token)) "grant-denied" "Tail" event_json).
  unfold calls, relay_calls. apply list_elem_of_further, list_elem_of_here.
Defined.

Lemma missing_log_tail_reaches_catch_all_witness :
  nested_status_code lib (Payload nolog_answer) = inr (PyInt 403)
  ∧ LogResult nolog_answer = None
  ∧ invoke_lambda_in_the_networking_account lib (hub "grant-nolog")
      hub_role "grant-nolog" event []
    = (inl (KeyError "LogResult"), calls "grant-nolog")
  ∧ lambda_handler lib (hub "grant-nolog") event PyNone []
    = (inr (failed_result event "'LogResult'"), calls "grant-nolog").
Proof.
  split; [vm_compute; reflexivity|]. split; [reflexivity|].
  apply (missing_log_tail_reaches_catch_all lib (hub "grant-nolog") event PyNone
           hub_role "grant-nolog" eq_refl eq_refl token event_json nolog_answer
           eq_refl eq_refl eq_refl (PyInt 403));
    [vm_compute; reflexivity|by right|reflexivity].
Defined.

End Examples.

(** * Examples for the further properties *)

Module MoreExamples.

Import Fixture.

Lemma annotation_returns_iff_status_readable_witness :
  (∃ d, handle_response_status_and_msg stale_response [] = (inr d, []))
  ∧ handle_response_status_and_msg ∅ [] = (inl (KeyError "ResponseMetadata"), []).
Proof.
  destruct (annotation_returns_iff_status_readable stale_response [])
    as (Hiff & _).
  destruct (annotation_returns_iff_status_readable ∅ []) as (_ & Hmissing & _).
  split.
  - apply Hiff. exists {[ "HTTPStatusCode" := PyInt 200 ]}, (PyInt 200).
    split; reflexivity.
  - apply Hmissing. reflexivity.
Defined.

Lemma annotation_frame_witness :
  handle_response_status_and_msg stale_response [] = (inr annotated_stale, [])
  ∧ annotated_stale !! "StatusCode" = stale_response !! "StatusCode"
  ∧ dom annotated_stale = dom stale_response ∪ {[ "responseStatus"; "statusCode" ]}.
Proof.
  assert (handle_response_status_and_msg stale_response [] = (inr annotated_stale, []))
    as Hrun by (vm_compute; reflexivity).
  split; [exact Hrun|].
  destruct (annotation_frame stale_response annotated_stale [] [] Hrun)
    as (_ & Hframe & Hdom & _).
  split; [by apply Hframe|exact Hdom].
Defined.

Lemma annotation_idempotent_witness :
  handle_response_status_and_msg stale_response [] = (inr annotated_stale, [])
  ∧ handle_response_status_and_msg annotated_stale [] = (inr annotated_stale, []).
Proof.
  assert (handle_response_status_and_msg stale_response [] = (inr annotated_stale, []))
    as Hrun by (vm_compute; reflexivity).
  split; [exact Hrun|].
  exact (annotation_idempotent stale_response annotated_stale [] [] Hrun).
Defined.

Lemma handler_raises_iff_unconfigured_witness :
  environ unconfigured !! "VPCE_PERM_ROLE_ARN" = None
  ∧ lambda_handler lib unconfigured event PyNone []
    = (inl (KeyError "VPCE_PERM_ROLE_ARN"), [])
  ∧ environ half_configured !! "FUNC_NAME" = None
  ∧ lambda_handler lib half_configured event PyNone []
    = (inl (KeyError "FUNC_NAME"), []).
Proof.
  destruct (handler_raises_iff_unconfigured lib unconfigured event PyNone)
    as (Hrole & _).
  destruct (handler_raises_iff_unconfigured lib half_configured event PyNone)
    as (_ & Hname & _).
  split; [reflexivity|]. split; [apply Hrole; reflexivity|].
  split; [reflexivity|]. apply Hname; [by eexists|reflexivity].
Defined.

Lemma sdk_call_discipline_witness :
  lambda_handler lib (hub "grant-ok") event PyNone []
  = (inr (annotated_response ok_answer), calls "grant-ok")
  ∧ (calls "grant-ok" = []
     ∨ ∃ arn fname,
         environ (hub "grant-ok") !! "VPCE_PERM_ROLE_ARN" = Some arn
         ∧ environ (hub "grant-ok") !! "FUNC_NAME" = Some fname
         ∧ (calls "grant-ok" = [AssumeRole arn "VPCE_PERMISSIONS"]
            ∨ ∃ tok p,
                sts_assume_role (hub "grant-ok") arn "VPCE_PERMISSIONS" = inr tok
                ∧ json_dumps lib event = inr p
                ∧ calls "grant-ok"
                  = [AssumeRole arn "VPCE_PERMISSIONS";
                     Invoke {| aws_access_key_id := AccessKeyId (Credentials tok);
                               aws_secret_access_key := SecretAccessKey (Credentials tok);
                               aws_session_token := SessionToken (Credentials tok) |}
                       fname "Tail" p])).
Proof.
  assert (lambda_handler lib (hub "grant-ok") event PyNone []
          = (inr (annotated_response ok_answer), calls "grant-ok")) as Hrun
    by (vm_compute; reflexivity).
  split; [exact Hrun|].
  exact (sdk_call_discipline lib (hub "grant-ok") event PyNone _ _ Hrun).
Defined.

Lemma success_is_sound_witness :
  lambda_handler lib (hub "grant-ok") event PyNone []
  = (inr (annotated_response ok_answer), calls "grant-ok")
  ∧ annotated_response ok_answer !! "responseStatus" = Some (PyStr "SUCCESS")
  ∧ ∃ arn fname tok p r c,
      environ (hub "grant-ok") !! "VPCE_PERM_ROLE_ARN" = Some arn
      ∧ environ (hub "grant-ok") !! "FUNC_NAME" = Some fname
      ∧ sts_assume_role (hub "grant-ok") arn "VPCE_PERMISSIONS" = inr tok
      ∧ json_dumps lib event = inr p
      ∧ lambda_invoke (hub "grant-ok") (session_client (Credentials tok)) fname "Tail" p
        = inr r
      ∧ FunctionError r = None
      ∧ nested_status_code lib (Payload r) = inr c
      ∧ py_eq_int c 200 = true
      ∧ HTTPStatusCode (ResponseMetadata r) = 200
      ∧ annotated_response ok_answer !! "statusCode" = Some (PyInt 200).
Proof.
  assert (lambda_handler lib (hub "grant-ok") event PyNone []
          = (inr (annotated_response ok_answer), calls "grant-ok")) as Hrun
    by (vm_compute; reflexivity).
  assert (annotated_response ok_answer !! "responseStatus" = Some (PyStr "SUCCESS"))
    as Hstatus by apply annotated_response_responseStatus.
  split; [exact Hrun|]. split; [exact Hstatus|].
  exact (success_is_sound lib (hub "grant-ok") event PyNone _ _ Hrun Hstatus).
Defined.

Lemma status_entries_agree_witness :
  lambda_handler lib (hub "grant-accepted") event PyNone []
  = (inr (annotated_response accepted_answer), calls "grant-accepted")
  ∧ (annotated_response accepted_answer !! "statusCode" = Some (PyInt 200)
     ↔ annotated_response accepted_answer !! "responseStatus" = Some (PyStr "SUCCESS")).
Proof.
  assert (lambda_handler lib (hub "grant-accepted") event PyNone []
          = (inr (annotated_response accepted_answer), calls "grant-accepted")) as Hrun
    by (vm_compute; reflexivity).
  split; [exact Hrun|].
  exact (status_entries_agree lib (hub "grant-accepted") event PyNone _ _ Hrun).
Defined.

Lemma unserialisable_event_never_invoked_witness :
  json_dumps lib_more stream_event
  = inl "Object of type StreamingBody is not JSON serializable"
  ∧ invoke_lambda_in_the_networking_account lib_more (hub_more "grant-ok")
      hub_role "grant-ok" stream_event []
    = (inl (TypeError "Object of type StreamingBody is not JSON serializable"),
       [AssumeRole hub_role "VPCE_PERMISSIONS"])
  ∧ lambda_handler lib_more (hub_more "grant-ok") stream_event PyNone []
    = (inr (failed_result stream_event
              "Object of type StreamingBody is not JSON serializable"),
       [AssumeRole hub_role "VPCE_PERMISSIONS"]).
Proof.
  split; [reflexivity|].
  apply (unserialisable_event_never_invoked lib_more (hub_more "grant-ok")
           stream_event PyNone hub_role "grant-ok" eq_refl eq_refl token);
    reflexivity.
Defined.

Lemma non_client_failure_reaches_catch_all_witness :
  lambda_invoke (hub_more "grant-offline") (session_client (Credentials token))
    "grant-offline" "Tail" event_json = inl offline
  ∧ is_ClientError offline = false
  ∧ invoke_lambda_in_the_networking_account lib (hub_more "grant-offline")
      hub_role "grant-offline" event []
    = (inl offline, calls "grant-offline")
  ∧ lambda_handler lib (hub_more "grant-offline") event PyNone []
    = (inr (failed_result event (exn_str offline)), calls "grant-offline").
Proof.
  split; [reflexivity|]. split; [reflexivity|].
  apply (non_client_failure_reaches_catch_all lib (hub_more "grant-offline")
           event PyNone hub_role "grant-offline" eq_refl eq_refl token event_json
           eq_refl eq_refl offline);
    reflexivity.
Defined.

Lemma undecodable_log_tail_reaches_catch_all_witness :
  LogResult badlog_answer = Some "Ym9"
  ∧ b64decode lib "Ym9" = inl "Incorrect padding"
  ∧ ∃ ex,
      (ex = BinasciiError "Incorrect padding"
       ∨ ex = UnicodeDecodeError "Incorrect padding")
      ∧ invoke_lambda_in_the_networking_account lib (hub_more "grant-badlog")
          hub_role "grant-badlog" event []
        = (inl ex, calls "grant-badlog")
      ∧ lambda_handler lib (hub_more "grant-badlog") event PyNone []
        = (inr (failed_result event "Incorrect padding"), calls "grant-badlog").
Proof.
  split; [reflexivity|]. split; [reflexivity|].
  apply (undecodable_log_tail_reaches_catch_all lib (hub_more "grant-badlog")
           event PyNone hub_role "grant-badlog" eq_refl eq_refl token event_json
           eq_refl eq_refl badlog_answer eq_refl (PyInt 403) "Ym9" "Incorrect padding");
    [vm_compute; reflexivity|by right|reflexivity|by left].
Defined.

Lemma non_numeric_status_is_failure_witness :
  nested_status_code lib_more (Payload string_status_answer) = inr (PyStr "200")
  ∧ HTTPStatusCode (ResponseMetadata string_status_answer) = 200
  ∧ FunctionError string_status_answer = None
  ∧ py_eq_int (PyStr "200") 200 = false
  ∧ lambda_handler lib_more (hub_more "grant-string-status") event PyNone []
    = (inr (failed_result event (json_encode_str lib_more "ok")),
       calls "grant-string-status").
Proof.
  split; [vm_compute; reflexivity|]. split; [reflexivity|]. split; [reflexivity|].
  apply (non_numeric_status_is_failure lib_more (hub_more "grant-string-status")
           event PyNone hub_role "grant-string-status" eq_refl eq_refl token event_json
           eq_refl eq_refl string_status_answer eq_refl (PyStr "200") "ok");
    [vm_compute; reflexivity|reflexivity|vm_compute; reflexivity].
Defined.

End MoreExamples.
